(** * claudie-sveltos-integration: the Secret reconciler and the stale sweep

    A shallow embedding of [internal/controller/secret_controller.go].
    The controller watches Claudie kubeconfig Secrets and keeps one
    SveltosCluster per eligible Secret; a background loop removes
    SveltosClusters whose owning Secret is gone.

    Objects keep the fields the controller reads or writes.  The resource
    store (controller-runtime's [client.Client]) is an external
    collaborator: it is modelled as an in-memory object store together with
    a script of injected failures, so that every store call can either go
    through or return an arbitrary error.  Stateful code runs in a small
    monad that threads the world, records the calls it makes and can abort
    with a Go runtime panic. *)

From stdpp Require Import base option list strings gmap fin_maps.
From Stdlib Require Import ZArith Lia Ascii.

Local Open Scope string_scope.
Local Open Scope list_scope.

(** ** Kubernetes object model *)

(** [types.NamespacedName] *)
Record NamespacedName := mkNamespacedName {
  nn_Namespace : string;
  nn_Name : string
}.

#[global] Instance NamespacedName_eq_dec : EqDecision NamespacedName.
Proof. solve_decision. Defined.

#[global] Instance NamespacedName_countable : Countable NamespacedName.
Proof.
  apply (inj_countable'
           (fun k => (nn_Namespace k, nn_Name k))
           (fun p => mkNamespacedName p.1 p.2)).
  by intros [].
Defined.

(** [NamespacedName.String()]: namespace, a slash, name. *)
Definition NamespacedName_String (k : NamespacedName) : string :=
  nn_Namespace k +:+ "/" +:+ nn_Name k.

(** [schema.GroupVersionKind], the value [GetObjectKind().GroupVersionKind()]
    returns for an object. *)
Record GroupVersionKind := mkGVK {
  gvk_Group : string;
  gvk_Version : string;
  gvk_Kind : string
}.

Definition is_empty_string (s : string) : bool :=
  match s with EmptyString => true | String _ _ => false end.

(** [GroupVersionKind.Empty] *)
Definition gvk_Empty (g : GroupVersionKind) : bool :=
  is_empty_string (gvk_Group g) && is_empty_string (gvk_Version g)
  && is_empty_string (gvk_Kind g).

(** [GroupVersion.String] *)
Definition GroupVersion_String (g : GroupVersionKind) : string :=
  if is_empty_string (gvk_Group g) then gvk_Version g
  else gvk_Group g +:+ "/" +:+ gvk_Version g.

(** [GroupVersionKind.ToAPIVersionAndKind] *)
Definition ToAPIVersionAndKind (g : GroupVersionKind) : string * string :=
  if gvk_Empty g then ("", "") else (GroupVersion_String g, gvk_Kind g).

(** [metav1.OwnerReference] *)
Record OwnerReference := mkOwnerReference {
  ref_APIVersion : string;
  ref_Kind : string;
  ref_Name : string;
  ref_UID : string
}.

#[global] Instance OwnerReference_eq_dec : EqDecision OwnerReference.
Proof. solve_decision. Defined.

(** [metav1.Time] as an offset from the zero instant; a pointer to one is
    an [option]. *)
Definition Time := Z.

(** [IsZero] on a pointer to [metav1.Time]: a nil pointer or the zero
    instant. *)
Definition IsZero (t : option Time) : bool :=
  match t with
  | None => true
  | Some i => (i =? 0)%Z
  end.

(** [metav1.ObjectMeta].  A Go map is [None] when nil. *)
Record ObjectMeta := mkObjectMeta {
  om_Name : string;
  om_Namespace : string;
  om_UID : string;
  om_Labels : option (gmap string string);
  om_Annotations : option (gmap string string);
  om_OwnerReferences : list OwnerReference;
  om_DeletionTimestamp : option Time
}.

(** The zero value of [metav1.ObjectMeta]. *)
Definition ObjectMeta_zero : ObjectMeta :=
  mkObjectMeta "" "" "" None None [] None.

Definition set_Name (n : string) (m : ObjectMeta) : ObjectMeta :=
  mkObjectMeta n (om_Namespace m) (om_UID m) (om_Labels m)
               (om_Annotations m) (om_OwnerReferences m) (om_DeletionTimestamp m).

Definition set_Namespace (n : string) (m : ObjectMeta) : ObjectMeta :=
  mkObjectMeta (om_Name m) n (om_UID m) (om_Labels m)
               (om_Annotations m) (om_OwnerReferences m) (om_DeletionTimestamp m).

Definition set_Annotations (a : option (gmap string string)) (m : ObjectMeta) : ObjectMeta :=
  mkObjectMeta (om_Name m) (om_Namespace m) (om_UID m) (om_Labels m)
               a (om_OwnerReferences m) (om_DeletionTimestamp m).

Definition set_OwnerReferences (l : list OwnerReference) (m : ObjectMeta) : ObjectMeta :=
  mkObjectMeta (om_Name m) (om_Namespace m) (om_UID m) (om_Labels m)
               (om_Annotations m) l (om_DeletionTimestamp m).

(** The key an object is stored under. *)
Definition ObjectKey (m : ObjectMeta) : NamespacedName :=
  mkNamespacedName (om_Namespace m) (om_Name m).

(** Indexing a Go map: a nil map reads as empty. *)
Definition map_index (m : option (gmap string string)) (k : string) : option string :=
  match m with
  | None => None
  | Some g => g !! k
  end.

(** [corev1.Secret]: type information and metadata (the payload is never
    read by the controller). *)
Record Secret := mkSecret {
  secret_GVK : GroupVersionKind;
  secret_Meta : ObjectMeta
}.

(** [libsveltosv1alpha1.SveltosCluster]: metadata and [Spec.KubeconfigName]. *)
Record SveltosCluster := mkSveltosCluster {
  sc_Meta : ObjectMeta;
  sc_KubeconfigName : string
}.

(** The zero value [&libsveltosv1alpha1.SveltosCluster{}]. *)
Definition SveltosCluster_zero : SveltosCluster :=
  mkSveltosCluster ObjectMeta_zero "".

Definition with_Meta (f : ObjectMeta -> ObjectMeta) (c : SveltosCluster) : SveltosCluster :=
  mkSveltosCluster (f (sc_Meta c)) (sc_KubeconfigName c).

Definition set_KubeconfigName (n : string) (c : SveltosCluster) : SveltosCluster :=
  mkSveltosCluster (sc_Meta c) n.

(** ** Constants of the controller *)

Definition claudieLabel : string := "app.kubernetes.io/part-of".
Definition claudieKubeconfig : string := "claudie.io/output".
Definition claudieCluster : string := "claudie.io/cluster".
Definition sveltosClusterClaudieAnnotation : string := "projectsveltos.io/claudie".

(** [time.Duration] counts nanoseconds. *)
Definition Second : Z := 1000000000.
Definition Minute : Z := 60 * Second.
Definition normalRequeueAfter : Z := 10 * Second.

(** ** Pure helpers of the reconciler *)

(** [shouldReconcileSecret]: all three Claudie labels are present. *)
Definition shouldReconcileSecret (secret : Secret) : bool :=
  match om_Labels (secret_Meta secret) with
  | None => false
  | Some labels =>
      match labels !! claudieLabel with
      | None => false
      | Some _ =>
          match labels !! claudieKubeconfig with
          | None => false
          | Some _ =>
              match labels !! claudieCluster with
              | None => false
              | Some _ => true
              end
          end
      end
  end.

(** [getSveltosClusterName]: the value of the cluster label; indexing a Go
    map with a missing key gives the empty string. *)
Definition getSveltosClusterName (secret : Secret) : string :=
  default "" (map_index (om_Labels (secret_Meta secret)) claudieCluster).

Definition getSveltosClusterNamespace (secret : Secret) : string :=
  om_Namespace (secret_Meta secret).

(** [addAnnotation]: allocate the map when nil, then set the provenance key. *)
Definition addAnnotation (sveltosCluster : SveltosCluster) : SveltosCluster :=
  let annotations :=
    match om_Annotations (sc_Meta sveltosCluster) with
    | None => ∅
    | Some a => a
    end in
  with_Meta (set_Annotations (Some (<[sveltosClusterClaudieAnnotation := "ok"]> annotations)))
            sveltosCluster.

(** The test of the loop of [addOwnerReference]. *)
Definition refersTo (secret : Secret) (ref : OwnerReference) : bool :=
  bool_decide (ref_Kind ref = gvk_Kind (secret_GVK secret))
  && bool_decide (ref_Name ref = om_Name (secret_Meta secret)).

(** [addOwnerReference]: return at the first reference with the secret's kind
    and name, otherwise append one. *)
Definition addOwnerReference (sveltosCluster : SveltosCluster) (secret : Secret) : SveltosCluster :=
  let onwerReferences := om_OwnerReferences (sc_Meta sveltosCluster) in
  if existsb (refersTo secret) onwerReferences then sveltosCluster
  else
    let '(apiVersion, kind) := ToAPIVersionAndKind (secret_GVK secret) in
    with_Meta (set_OwnerReferences
                 (onwerReferences ++
                    [mkOwnerReference apiVersion kind
                       (om_Name (secret_Meta secret)) (om_UID (secret_Meta secret))]))
              sveltosCluster.

(** ** Pure helpers of the sweep *)

Definition isSveltosClusterForClaudie (sveltosCluster : SveltosCluster) : bool :=
  match om_Annotations (sc_Meta sveltosCluster) with
  | None => false
  | Some a => bool_decide (is_Some (a !! sveltosClusterClaudieAnnotation))
  end.

(** [getClaudieSecret]: the first owner reference of kind Secret, as a key in
    the cluster's namespace; nil when there is none. *)
Fixpoint firstSecretOwner (ns : string) (refs : list OwnerReference) : option NamespacedName :=
  match refs with
  | [] => None
  | ref :: rest =>
      if bool_decide (ref_Kind ref = "Secret")
      then Some (mkNamespacedName ns (ref_Name ref))
      else firstSecretOwner ns rest
  end.

Definition getClaudieSecret (sveltosCluster : SveltosCluster) : option NamespacedName :=
  firstSecretOwner (om_Namespace (sc_Meta sveltosCluster))
                   (om_OwnerReferences (sc_Meta sveltosCluster)).

(** ** Errors *)

(** The reason of an API status error ([metav1.StatusReason]). *)
Inductive StatusReason :=
| StatusReasonNotFound
| StatusReasonAlreadyExists
| StatusReasonConflict
| StatusReasonInvalid
| StatusReasonInternalError
| StatusReasonServerTimeout.

(** A Go [error] value: a status error of the store, or one annotated by
    [errors.Wrapf]. *)
Inductive error :=
| StatusError (reason : StatusReason)
| withMessage (cause : error) (msg : string).

(** [apierrors.IsNotFound] *)
Fixpoint IsNotFound (err : error) : bool :=
  match err with
  | StatusError StatusReasonNotFound => true
  | StatusError _ => false
  | withMessage cause _ => IsNotFound cause
  end.

(** [err.Error()] *)
Fixpoint Error (err : error) : string :=
  match err with
  | StatusError StatusReasonNotFound => "not found"
  | StatusError StatusReasonAlreadyExists => "already exists"
  | StatusError StatusReasonConflict => "conflict"
  | StatusError StatusReasonInvalid => "invalid"
  | StatusError StatusReasonInternalError => "internal error"
  | StatusError StatusReasonServerTimeout => "server timeout"
  | withMessage cause msg => msg +:+ ": " +:+ Error cause
  end.

(** [errors.Wrapf] of github.com/pkg/errors: nil stays nil. *)
Definition Wrapf (err : option error) (msg : string) : option error :=
  match err with
  | None => None
  | Some e => Some (withMessage e msg)
  end.

(** Formatting an error that may be nil with the verb v. *)
Definition fmt_err (err : option error) : string :=
  match err with
  | None => "<nil>"
  | Some e => Error e
  end.

(** [reconcile.Result] *)
Record Result := mkResult {
  Requeue : bool;
  RequeueAfter : Z
}.

Definition Result_zero : Result := mkResult false 0.

(** ** The world: resource store, index and mutex *)

Inductive ResourceKind := KSecret | KSveltosCluster.

(** What a run does, in order: log lines, mutex operations, accesses to the
    [SecretToCluster] map, calls to the resource store, sleeps. *)
Inductive Event :=
| EvLog (msg : string)
| EvLock
| EvUnlock
| EvMapRead (key : NamespacedName)
| EvMapWrite (key value : NamespacedName)
| EvMapDelete (key : NamespacedName)
| EvGet (kind : ResourceKind) (key : NamespacedName)
| EvList
| EvCreate (obj : SveltosCluster)
| EvUpdate (obj : SveltosCluster)
| EvDelete (obj : SveltosCluster)
| EvSleep (d : Z).

(** The store holds Secrets and SveltosClusters by key.  [faults] scripts the
    failures of the coming store calls: each call takes the head; [Some err]
    makes that call return [err] and change nothing, [None] (or an exhausted
    script) lets it go through.  [SecretToCluster] and [Mux] are the fields
    of [SecretReconciler]. *)
Record World := mkWorld {
  secrets : gmap NamespacedName Secret;
  clusters : gmap NamespacedName SveltosCluster;
  faults : list (option error);
  SecretToCluster : gmap NamespacedName NamespacedName;
  Mux : bool
}.

Definition set_clusters (c : gmap NamespacedName SveltosCluster) (w : World) : World :=
  mkWorld (secrets w) c (faults w) (SecretToCluster w) (Mux w).

Definition set_faults (f : list (option error)) (w : World) : World :=
  mkWorld (secrets w) (clusters w) f (SecretToCluster w) (Mux w).

Definition set_SecretToCluster (m : gmap NamespacedName NamespacedName) (w : World) : World :=
  mkWorld (secrets w) (clusters w) (faults w) m (Mux w).

Definition set_Mux (b : bool) (w : World) : World :=
  mkWorld (secrets w) (clusters w) (faults w) (SecretToCluster w) b.

(** Ways a goroutine stops without returning. *)
Inductive Abort :=
| NilPointerDereference
| UnlockOfUnlockedMutex
| Deadlock.

Inductive Outcome (A : Type) :=
| Ret (a : A)
| Crash (why : Abort).
Arguments Ret {A} a.
Arguments Crash {A} why.

(** A computation maps a world to an outcome, the world it leaves and the
    events it emitted. *)
Definition M (A : Type) : Type := World -> Outcome A * World * list Event.

#[global] Instance M_ret : MRet M := fun A a w => (Ret a, w, []).

#[global] Instance M_bind : MBind M := fun A B f m w =>
  match m w with
  | (Ret a, w1, t1) =>
      match f a w1 with
      | (o, w2, t2) => (o, w2, t1 ++ t2)
      end
  | (Crash why, w1, t1) => (Crash why, w1, t1)
  end.

Definition emit (e : Event) : M unit := fun w => (Ret tt, w, [e]).

Definition crash {A} (why : Abort) : M A := fun w => (Crash why, w, []).

Definition log (msg : string) : M unit := emit (EvLog msg).

(** [sync.Mutex]: locking a held mutex blocks for ever, unlocking a free one
    is a fatal error. *)
Definition Lock : M unit := fun w =>
  if Mux w then (Crash Deadlock, w, [])
  else (Ret tt, set_Mux true w, [EvLock]).

Definition Unlock : M unit := fun w =>
  if Mux w then (Ret tt, set_Mux false w, [EvUnlock])
  else (Crash UnlockOfUnlockedMutex, w, []).

(** [defer r.Mux.Unlock()]: the unlock runs when the body is left, also by a
    panic. *)
Definition defer_Unlock {A} (body : M A) : M A := fun w =>
  match body w with
  | (o, w1, t1) =>
      match Unlock w1 with
      | (Ret _, w2, t2) => (o, w2, t1 ++ t2)
      | (Crash why, w2, t2) => (Crash why, w2, t1 ++ t2)
      end
  end.

(** Accesses to the map [r.SecretToCluster]. *)
Definition map_read (key : NamespacedName) : M (option NamespacedName) := fun w =>
  (Ret (SecretToCluster w !! key), w, [EvMapRead key]).

Definition map_write (key value : NamespacedName) : M unit := fun w =>
  (Ret tt, set_SecretToCluster (<[key := value]> (SecretToCluster w)) w,
   [EvMapWrite key value]).

Definition map_delete (key : NamespacedName) : M unit := fun w =>
  (Ret tt, set_SecretToCluster (delete key (SecretToCluster w)) w, [EvMapDelete key]).

(** *** The resource store *)

Definition next_fault (w : World) : option error * World :=
  match faults w with
  | [] => (None, w)
  | f :: rest => (f, set_faults rest w)
  end.

(** The manager's client reads through its cache, whose reader sets the
    group, version and kind of the requested type on the object it returns
    (test/fv relies on it: the owner of a created SveltosCluster is looked up
    by the kind Secret). *)
Definition SecretGVK : GroupVersionKind := mkGVK "" "v1" "Secret".

Definition stamp (s : Secret) : Secret := mkSecret SecretGVK (secret_Meta s).

Definition client_Get_Secret (key : NamespacedName) : M (Secret + error) := fun w =>
  match next_fault w with
  | (Some err, w1) => (Ret (inr err), w1, [EvGet KSecret key])
  | (None, w1) =>
      match secrets w1 !! key with
      | Some s => (Ret (inl (stamp s)), w1, [EvGet KSecret key])
      | None => (Ret (inr (StatusError StatusReasonNotFound)), w1, [EvGet KSecret key])
      end
  end.

Definition client_Get_SveltosCluster (key : NamespacedName) : M (SveltosCluster + error) := fun w =>
  match next_fault w with
  | (Some err, w1) => (Ret (inr err), w1, [EvGet KSveltosCluster key])
  | (None, w1) =>
      match clusters w1 !! key with
      | Some c => (Ret (inl c), w1, [EvGet KSveltosCluster key])
      | None => (Ret (inr (StatusError StatusReasonNotFound)), w1, [EvGet KSveltosCluster key])
      end
  end.

Definition client_List : M (list SveltosCluster + error) := fun w =>
  match next_fault w with
  | (Some err, w1) => (Ret (inr err), w1, [EvList])
  | (None, w1) => (Ret (inl ((map_to_list (clusters w1)).*2)), w1, [EvList])
  end.

(** The store validates the name of an object it is asked to create: it
    must be a DNS-1123 subdomain, that is at most 253 characters, made of
    labels of lower-case letters, digits and dashes that start and end with a
    letter or digit, joined by dots.  The empty name is refused. *)
Inductive NameScan := AtLabelStart | AfterAlnum | AfterDash.

Definition is_lower_alnum (a : ascii) : bool :=
  let n := nat_of_ascii a in
  (Nat.leb 48 n && Nat.leb n 57) || (Nat.leb 97 n && Nat.leb n 122).

Fixpoint scanDNS1123 (st : NameScan) (s : string) : bool :=
  match s with
  | EmptyString => match st with AfterAlnum => true | _ => false end
  | String a rest =>
      if is_lower_alnum a then scanDNS1123 AfterAlnum rest
      else if Ascii.eqb a "-"%char then
        match st with
        | AtLabelStart => false
        | _ => scanDNS1123 AfterDash rest
        end
      else if Ascii.eqb a "."%char then
        match st with
        | AfterAlnum => scanDNS1123 AtLabelStart rest
        | _ => false
        end
      else false
  end.

Definition IsDNS1123Subdomain (name : string) : bool :=
  Nat.leb (String.length name) 253 && scanDNS1123 AtLabelStart name.

Definition client_Create (obj : SveltosCluster) : M (option error) := fun w =>
  match next_fault w with
  | (Some err, w1) => (Ret (Some err), w1, [EvCreate obj])
  | (None, w1) =>
      if negb (IsDNS1123Subdomain (om_Name (sc_Meta obj)))
      then (Ret (Some (StatusError StatusReasonInvalid)), w1, [EvCreate obj])
      else
        match clusters w1 !! ObjectKey (sc_Meta obj) with
        | Some _ => (Ret (Some (StatusError StatusReasonAlreadyExists)), w1, [EvCreate obj])
        | None =>
            (Ret None, set_clusters (<[ObjectKey (sc_Meta obj) := obj]> (clusters w1)) w1,
             [EvCreate obj])
        end
  end.

Definition client_Update (obj : SveltosCluster) : M (option error) := fun w =>
  match next_fault w with
  | (Some err, w1) => (Ret (Some err), w1, [EvUpdate obj])
  | (None, w1) =>
      match clusters w1 !! ObjectKey (sc_Meta obj) with
      | None => (Ret (Some (StatusError StatusReasonNotFound)), w1, [EvUpdate obj])
      | Some _ =>
          (Ret None, set_clusters (<[ObjectKey (sc_Meta obj) := obj]> (clusters w1)) w1,
           [EvUpdate obj])
      end
  end.

Definition client_Delete (obj : SveltosCluster) : M (option error) := fun w =>
  match next_fault w with
  | (Some err, w1) => (Ret (Some err), w1, [EvDelete obj])
  | (None, w1) =>
      match clusters w1 !! ObjectKey (sc_Meta obj) with
      | None => (Ret (Some (StatusError StatusReasonNotFound)), w1, [EvDelete obj])
      | Some _ =>
          (Ret None, set_clusters (delete (ObjectKey (sc_Meta obj)) (clusters w1)) w1,
           [EvDelete obj])
      end
  end.

(** ** The reconciler *)

(** [updateSecretToClusterMap]: the map write, under the mutex. *)
Definition updateSecretToClusterMap (secret : Secret)
    (sveltosClusterNamespace sveltosClusterName : string) : M unit :=
  let secretRef := ObjectKey (secret_Meta secret) in
  Lock ;;
  defer_Unlock
    (map_write secretRef (mkNamespacedName sveltosClusterNamespace sveltosClusterName)).

(** [cleanSveltosCluster]: remove the SveltosCluster recorded for a secret
    key, if any.  The mutex is taken on entry and released on return. *)
Definition cleanSveltosCluster (secretRef : NamespacedName) : M (option error) :=
  Lock ;;
  defer_Unlock
    (let secretKey := mkNamespacedName (nn_Namespace secretRef) (nn_Name secretRef) in
     found ← map_read secretKey;
     match found with
     | None => mret None
     | Some sveltosClusterInfo =>
         log "removing SveltosCluster for Secret" ;;
         got ← client_Get_SveltosCluster sveltosClusterInfo;
         match got with
         | inr err =>
             if IsNotFound err
             then map_delete secretKey ;; mret None
             else mret (Some err)
         | inl sveltosCluster =>
             err ← client_Delete sveltosCluster;
             match err with
             | Some e => mret (Some e)
             | None => map_delete secretKey ;; mret None
             end
         end
     end).

(** [createSveltosCluster]: record the association, then create the
    SveltosCluster, or update it when it exists. *)
Definition createSveltosCluster (secret : Secret) : M (option error) :=
  log "reconciling secret" ;;
  let sveltosClusterNamespace := getSveltosClusterNamespace secret in
  let sveltosClusterName := getSveltosClusterName secret in
  updateSecretToClusterMap secret sveltosClusterNamespace sveltosClusterName ;;
  got ← client_Get_SveltosCluster
          (mkNamespacedName sveltosClusterNamespace sveltosClusterName);
  match got with
  | inr err =>
      if IsNotFound err then
        let sveltosCluster := SveltosCluster_zero in
        let sveltosCluster := with_Meta (set_Namespace sveltosClusterNamespace) sveltosCluster in
        let sveltosCluster := with_Meta (set_Name sveltosClusterName) sveltosCluster in
        let sveltosCluster := set_KubeconfigName (om_Name (secret_Meta secret)) sveltosCluster in
        let sveltosCluster := addAnnotation sveltosCluster in
        let sveltosCluster := addOwnerReference sveltosCluster secret in
        client_Create sveltosCluster
      else mret (Some err)
  | inl sveltosCluster =>
      let sveltosCluster := addAnnotation sveltosCluster in
      let sveltosCluster := addOwnerReference sveltosCluster secret in
      client_Update sveltosCluster
  end.

Definition requeue : Result := mkResult true normalRequeueAfter.

(** The end of [Reconcile], from the eligibility test on. *)
Definition reconcileSecret (secret : Secret) : M (Result * option error) :=
  if negb (shouldReconcileSecret secret) then mret (Result_zero, None)
  else
    err ← createSveltosCluster secret;
    match err with
    | Some e =>
        log ("failed to reconcile: " +:+ Error e) ;;
        mret (requeue, None)
    | None => mret (Result_zero, None)
    end.

(** [Reconcile]: one pass for a secret key. *)
Definition Reconcile (req : NamespacedName) : M (Result * option error) :=
  log "Reconciling" ;;
  let fetchFailed (err : option error) : M (Result * option error) :=
    log ("Failed to fetch Secret: " +:+ fmt_err err) ;;
    mret (Result_zero,
          Wrapf err ("Failed to fetch Secret " +:+ NamespacedName_String req)) in
  got ← client_Get_Secret req;
  match got with
  | inr err =>
      if IsNotFound err then
        err ← cleanSveltosCluster req;
        match err with
        | Some e =>
            log ("failed to reconcile: " +:+ Error e) ;;
            mret (requeue, None)
        | None => fetchFailed None
        end
      else fetchFailed (Some err)
  | inl secret =>
      if negb (IsZero (om_DeletionTimestamp (secret_Meta secret))) then
        err ← cleanSveltosCluster req;
        match err with
        | Some e =>
            log ("failed to reconcile: " +:+ Error e) ;;
            mret (requeue, None)
        | None => reconcileSecret secret
        end
      else reconcileSecret secret
  end.

(** ** The sweep *)

(** [isClaudieSecretRemoved]: the key is dereferenced before the store is
    asked, so a nil key panics. *)
Definition isClaudieSecretRemoved (claudieSecret : option NamespacedName) : M bool :=
  match claudieSecret with
  | None => crash NilPointerDereference
  | Some key =>
      got ← client_Get_Secret key;
      match got with
      | inr err => mret (IsNotFound err)
      | inl secret => mret (negb (IsZero (om_DeletionTimestamp (secret_Meta secret))))
      end
  end.

(** The body of the loop over the listed SveltosClusters. *)
Definition sweepItem (sveltosCluster : SveltosCluster) : M unit :=
  if negb (IsZero (om_DeletionTimestamp (sc_Meta sveltosCluster))) then mret tt
  else if negb (isSveltosClusterForClaudie sveltosCluster) then mret tt
  else
    let claudieSecret := getClaudieSecret sveltosCluster in
    match claudieSecret with
    | None =>
        log ("found SveltosCluster " +:+ om_Namespace (sc_Meta sveltosCluster) +:+ "/"
             +:+ om_Name (sc_Meta sveltosCluster) +:+ " with no Claudie reference")
    | Some _ => mret tt
    end ;;
    removed ← isClaudieSecretRemoved claudieSecret;
    if negb removed then mret tt
    else
      err ← client_Delete sveltosCluster;
      match err with
      | Some e =>
          log ("failed to delete sveltosCluster " +:+ om_Namespace (sc_Meta sveltosCluster)
               +:+ "/" +:+ om_Name (sc_Meta sveltosCluster) +:+ ": " +:+ Error e)
      | None => mret tt
      end.

Fixpoint sweepItems (items : list SveltosCluster) : M unit :=
  match items with
  | [] => mret tt
  | sveltosCluster :: rest => sweepItem sveltosCluster ;; sweepItems rest
  end.

(** One round of the loop of [cleanStaleSveltosCluster]. *)
Definition sweepTick : M unit :=
  emit (EvSleep (2 * Minute)) ;;
  listed ← client_List;
  match listed with
  | inr _ => mret tt
  | inl items => sweepItems items
  end.

(** [cleanStaleSveltosCluster] loops for ever; [ticks] bounds the rounds
    observed. *)
Fixpoint cleanStaleSveltosCluster (ticks : nat) : M unit :=
  match ticks with
  | O => mret tt
  | S n => sweepTick ;; cleanStaleSveltosCluster n
  end.

(** ** Reading a run *)

Definition outcome_of {A} (r : Outcome A * World * list Event) : Outcome A := r.1.1.
Definition world_of {A} (r : Outcome A * World * list Event) : World := r.1.2.
Definition events_of {A} (r : Outcome A * World * list Event) : list Event := r.2.

Definition is_store_call (e : Event) : bool :=
  match e with
  | EvGet _ _ | EvList | EvCreate _ | EvUpdate _ | EvDelete _ => true
  | _ => false
  end.

(** Calls that create, update or delete a registered cluster. *)
Definition is_store_write (e : Event) : bool :=
  match e with
  | EvCreate _ | EvUpdate _ | EvDelete _ => true
  | _ => false
  end.

Definition is_map_access (e : Event) : bool :=
  match e with
  | EvMapRead _ | EvMapWrite _ _ | EvMapDelete _ => true
  | _ => false
  end.

Definition store_writes (t : list Event) : list Event := List.filter is_store_write t.


(** Every access to the map happens while the mutex is held. *)
Fixpoint map_guarded (held : bool) (t : list Event) : bool :=
  match t with
  | [] => true
  | EvLock :: rest => map_guarded true rest
  | EvUnlock :: rest => map_guarded false rest
  | e :: rest => (held || negb (is_map_access e)) && map_guarded held rest
  end.

(** The required labels a secret lacks, in the words of the specification:
    a label is missing when the secret has no labels or the key is absent. *)
Definition has_label (secret : Secret) (key : string) : Prop :=
  is_Some (map_index (om_Labels (secret_Meta secret)) key).

Definition eligible (secret : Secret) : Prop :=
  has_label secret claudieLabel ∧ has_label secret claudieKubeconfig
  ∧ has_label secret claudieCluster.

(** A cluster that already carries what the reconciler sets: the provenance
    annotation and an owner reference with the secret's kind and name. *)
Definition already_marked (c : SveltosCluster) (secret : Secret) : Prop :=
  map_index (om_Annotations (sc_Meta c)) sveltosClusterClaudieAnnotation = Some "ok"
  ∧ existsb (refersTo secret) (om_OwnerReferences (sc_Meta c)) = true.

(** Every stored cluster sits under its own namespace and name. *)
Definition well_keyed (m : gmap NamespacedName SveltosCluster) : Prop :=
  ∀ k c, m !! k = Some c → ObjectKey (sc_Meta c) = k.

(** What the reconciler sets on a cluster, in the order of the source. *)
Definition mark (secret : Secret) (c : SveltosCluster) : SveltosCluster :=
  addOwnerReference (addAnnotation c) secret.

(** ** Shapes of runs *)

(** A store call consumes one entry of the failure script and leaves the
    rest of the world to the operation. *)
Definition after_fault (w : World) : World := (next_fault w).2.

(** The forms a store call can take. *)
Inductive GetClusterRun (key : NamespacedName) (w : World) :
    SveltosCluster + error → Prop :=
| GetCluster_fault err :
    (next_fault w).1 = Some err → GetClusterRun key w (inr err)
| GetCluster_found c :
    (next_fault w).1 = None → clusters w !! key = Some c → GetClusterRun key w (inl c)
| GetCluster_missing :
    (next_fault w).1 = None → clusters w !! key = None →
    GetClusterRun key w (inr (StatusError StatusReasonNotFound)).

(** The same for the fetch of a secret, which comes back with its type
    information set. *)
Inductive GetSecretRun (key : NamespacedName) (w : World) : Secret + error → Prop :=
| GetSecret_fault err :
    (next_fault w).1 = Some err → GetSecretRun key w (inr err)
| GetSecret_found s :
    (next_fault w).1 = None → secrets w !! key = Some s → GetSecretRun key w (inl (stamp s))
| GetSecret_missing :
    (next_fault w).1 = None → secrets w !! key = None →
    GetSecretRun key w (inr (StatusError StatusReasonNotFound)).

(** A write either fails and changes nothing, or goes through. *)
Inductive WriteRun (w : World) (changed : gmap NamespacedName SveltosCluster) :
    option error → World → Prop :=
| Write_failed err : WriteRun w changed (Some err) (after_fault w)
| Write_done :
    (next_fault w).1 = None →
    WriteRun w changed None (set_clusters changed (after_fault w)).

(** The ways [cleanSveltosCluster] ends when the key is in the index. *)
Inductive CleanRun (k info : NamespacedName) (w : World) :
    Outcome (option error) * World * list Event → Prop :=
| Clean_gone err :
    let wl := set_Mux true w in
    client_Get_SveltosCluster info wl
      = (Ret (inr err), after_fault wl, [EvGet KSveltosCluster info]) →
    IsNotFound err = true →
    CleanRun k info w
      (Ret None,
       set_Mux false (set_SecretToCluster (delete k (SecretToCluster w)) (after_fault wl)),
       [EvLock; EvMapRead k; EvLog "removing SveltosCluster for Secret";
        EvGet KSveltosCluster info; EvMapDelete k; EvUnlock])
| Clean_get_failed err :
    let wl := set_Mux true w in
    client_Get_SveltosCluster info wl
      = (Ret (inr err), after_fault wl, [EvGet KSveltosCluster info]) →
    IsNotFound err = false →
    CleanRun k info w
      (Ret (Some err), set_Mux false (after_fault wl),
       [EvLock; EvMapRead k; EvLog "removing SveltosCluster for Secret";
        EvGet KSveltosCluster info; EvUnlock])
| Clean_delete_failed c e w2 :
    let wl := set_Mux true w in
    client_Get_SveltosCluster info wl
      = (Ret (inl c), after_fault wl, [EvGet KSveltosCluster info]) →
    clusters w !! info = Some c →
    client_Delete c (after_fault wl) = (Ret (Some e), w2, [EvDelete c]) →
    clusters w2 = clusters w →
    SecretToCluster w2 = SecretToCluster w →
    CleanRun k info w
      (Ret (Some e), set_Mux false w2,
       [EvLock; EvMapRead k; EvLog "removing SveltosCluster for Secret";
        EvGet KSveltosCluster info; EvDelete c; EvUnlock])
| Clean_deleted c w2 :
    let wl := set_Mux true w in
    client_Get_SveltosCluster info wl
      = (Ret (inl c), after_fault wl, [EvGet KSveltosCluster info]) →
    clusters w !! info = Some c →
    client_Delete c (after_fault wl) = (Ret None, w2, [EvDelete c]) →
    clusters w2 = delete (ObjectKey (sc_Meta c)) (clusters w) →
    SecretToCluster w2 = SecretToCluster w →
    CleanRun k info w
      (Ret None, set_Mux false (set_SecretToCluster (delete k (SecretToCluster w)) w2),
       [EvLock; EvMapRead k; EvLog "removing SveltosCluster for Secret";
        EvGet KSveltosCluster info; EvDelete c; EvMapDelete k; EvUnlock]).

(** The object [createSveltosCluster] builds when the cluster is absent. *)
Definition newSveltosCluster (secret : Secret) : SveltosCluster :=
  mark secret
    (set_KubeconfigName (om_Name (secret_Meta secret))
       (with_Meta (set_Name (getSveltosClusterName secret))
          (with_Meta (set_Namespace (getSveltosClusterNamespace secret))
             SveltosCluster_zero))).

(** The key of the cluster of a secret, and the world once the association
    is recorded. *)
Definition targetOf (secret : Secret) : NamespacedName :=
  mkNamespacedName (getSveltosClusterNamespace secret) (getSveltosClusterName secret).

Definition recorded (secret : Secret) (w : World) : World :=
  set_SecretToCluster
    (<[ObjectKey (secret_Meta secret) := targetOf secret]> (SecretToCluster w)) w.

Definition recordEvents (secret : Secret) : list Event :=
  [EvLog "reconciling secret"; EvLock;
   EvMapWrite (ObjectKey (secret_Meta secret)) (targetOf secret); EvUnlock;
   EvGet KSveltosCluster (targetOf secret)].

(** The ways [createSveltosCluster] ends. *)
Inductive CreateRun (secret : Secret) (w : World) :
    Outcome (option error) * World * list Event → Prop :=
| Create_get_failed err :
    GetClusterRun (targetOf secret) (recorded secret w) (inr err) →
    IsNotFound err = false →
    CreateRun secret w
      (Ret (Some err), after_fault (recorded secret w), recordEvents secret)
| Create_created err o w2 :
    GetClusterRun (targetOf secret) (recorded secret w) (inr err) →
    IsNotFound err = true →
    WriteRun (after_fault (recorded secret w))
      (<[ObjectKey (sc_Meta (newSveltosCluster secret)) := newSveltosCluster secret]>
         (clusters w)) o w2 →
    client_Create (newSveltosCluster secret) (after_fault (recorded secret w))
      = (Ret o, w2, [EvCreate (newSveltosCluster secret)]) →
    CreateRun secret w
      (Ret o, w2, recordEvents secret ++ [EvCreate (newSveltosCluster secret)])
| Create_updated c o w2 :
    GetClusterRun (targetOf secret) (recorded secret w) (inl c) →
    WriteRun (after_fault (recorded secret w))
      (<[ObjectKey (sc_Meta (mark secret c)) := mark secret c]> (clusters w)) o w2 →
    client_Update (mark secret c) (after_fault (recorded secret w))
      = (Ret o, w2, [EvUpdate (mark secret c)]) →
    CreateRun secret w
      (Ret o, w2, recordEvents secret ++ [EvUpdate (mark secret c)]).

(** The pass over an eligible, live secret when the store does not fail. *)
Definition upserted (s : Secret) (w : World) : option error * World * list Event :=
  match clusters w !! targetOf s with
  | None =>
      if IsDNS1123Subdomain (getSveltosClusterName s) then
        (None,
         set_clusters (<[targetOf s := newSveltosCluster s]> (clusters w)) (recorded s w),
         [EvCreate (newSveltosCluster s)])
      else
        (Some (StatusError StatusReasonInvalid), recorded s w,
         [EvCreate (newSveltosCluster s)])
  | Some c =>
      match clusters w !! ObjectKey (sc_Meta c) with
      | None =>
          (Some (StatusError StatusReasonNotFound), recorded s w, [EvUpdate (mark s c)])
      | Some _ =>
          (None,
           set_clusters (<[ObjectKey (sc_Meta c) := mark s c]> (clusters w)) (recorded s w),
           [EvUpdate (mark s c)])
      end
  end.

(** The result and the closing log line of a pass, from the error of the
    create-or-update step. *)
Definition passResult (err : option error) : Result * list Event :=
  match err with
  | Some e => (requeue, [EvLog ("failed to reconcile: " +:+ Error e)])
  | None => (Result_zero, [])
  end.

(** A listed cluster the sweep must leave alone: marked for deletion, or
    without the provenance annotation. *)
Definition skipped (c : SveltosCluster) : Prop :=
  IsZero (om_DeletionTimestamp (sc_Meta c)) = false
  ∨ map_index (om_Annotations (sc_Meta c)) sveltosClusterClaudieAnnotation = None.

(** ** Further vocabulary *)

(** An owner reference of kind Secret, the kind the sweep looks for. *)
Definition isSecretRef (ref : OwnerReference) : bool :=
  bool_decide (ref_Kind ref = "Secret").

(** The state of the mutex after a trace. *)
Fixpoint lock_after (held : bool) (t : list Event) : bool :=
  match t with
  | [] => held
  | EvLock :: rest => lock_after true rest
  | EvUnlock :: rest => lock_after false rest
  | _ :: rest => lock_after held rest
  end.

(** A trace that starts and ends with the mutex free and touches the index
    only while it holds the mutex. *)
Definition balanced (t : list Event) : Prop :=
  map_guarded false t = true ∧ lock_after false t = false.

(** Every store write of a trace is a delete. *)
Definition only_deletes (t : list Event) : Prop :=
  ∀ e, e ∈ t → is_store_write e = true → ∃ c, e = EvDelete c.

(** The world once the external tool has removed or replaced secrets. *)
Definition set_secrets (s : gmap NamespacedName Secret) (w : World) : World :=
  mkWorld s (clusters w) (faults w) (SecretToCluster w) (Mux w).

(** Whether the answer to the fetch of the owning secret counts as removed:
    a not-found error, or a secret with a deletion timestamp. *)
Definition counts_as_removed (got : Secret + error) : bool :=
  match got with
  | inr err => IsNotFound err
  | inl secret => negb (IsZero (om_DeletionTimestamp (secret_Meta secret)))
  end.

(** The ways the loop body of the sweep ends for one listed cluster. *)
Inductive SweepRun (c : SveltosCluster) (w : World) :
    Outcome unit * World * list Event → Prop :=
| Sweep_skipped :
    skipped c → SweepRun c w (Ret tt, w, [])
| Sweep_no_owner msg :
    ¬ skipped c → getClaudieSecret c = None →
    SweepRun c w (Crash NilPointerDereference, w, [EvLog msg])
| Sweep_kept key got :
    ¬ skipped c → getClaudieSecret c = Some key →
    client_Get_Secret key w = (Ret got, after_fault w, [EvGet KSecret key]) →
    counts_as_removed got = false →
    SweepRun c w (Ret tt, after_fault w, [EvGet KSecret key])
| Sweep_delete_failed key got e w2 :
    ¬ skipped c → getClaudieSecret c = Some key →
    client_Get_Secret key w = (Ret got, after_fault w, [EvGet KSecret key]) →
    counts_as_removed got = true →
    WriteRun (after_fault w) (delete (ObjectKey (sc_Meta c)) (clusters w)) (Some e) w2 →
    SweepRun c w
      (Ret tt, w2,
       [EvGet KSecret key; EvDelete c;
        EvLog ("failed to delete sveltosCluster " +:+ om_Namespace (sc_Meta c) +:+ "/"
               +:+ om_Name (sc_Meta c) +:+ ": " +:+ Error e)])
| Sweep_deleted key got w2 :
    ¬ skipped c → getClaudieSecret c = Some key →
    client_Get_Secret key w = (Ret got, after_fault w, [EvGet KSecret key]) →
    counts_as_removed got = true →
    WriteRun (after_fault w) (delete (ObjectKey (sc_Meta c)) (clusters w)) None w2 →
    SweepRun c w (Ret tt, w2, [EvGet KSecret key; EvDelete c]).


(** The label keys of a secret; a nil map has none. *)
Definition label_keys (secret : Secret) : gset string :=
  match om_Labels (secret_Meta secret) with
  | None => ∅
  | Some labels => dom labels
  end.

(** ** Example objects *)

Definition claudieLabels (cluster : string) : gmap string string :=
  <[claudieLabel := "claudie"]>
    (<[claudieKubeconfig := "kubeconfig"]> (<[claudieCluster := cluster]> ∅)).

Definition key_s1 : NamespacedName := mkNamespacedName "ns" "s1".
Definition key_c1 : NamespacedName := mkNamespacedName "ns" "c1".
Definition key_c2 : NamespacedName := mkNamespacedName "ns" "c2".

(** The secret ns/s1 of a Claudie cluster c1. *)
Definition secret_s1 : Secret :=
  mkSecret SecretGVK
    (mkObjectMeta "s1" "ns" "uid-s1" (Some (claudieLabels "c1")) None [] None).

(** The same secret once its deletion has begun. *)
Definition secret_s1_terminating : Secret :=
  mkSecret SecretGVK
    (mkObjectMeta "s1" "ns" "uid-s1" (Some (claudieLabels "c1")) None []
       (Some 1700000000%Z)).

(** A secret with two of the three labels. *)
Definition secret_two_labels : Secret :=
  mkSecret SecretGVK
    (mkObjectMeta "s1" "ns" "uid-s1"
       (Some (<[claudieLabel := "claudie"]> (<[claudieCluster := "c1"]> ∅)))
       None [] None).

(** The SveltosCluster ns/c1 of secret ns/s1. *)
Definition cluster_c1 : SveltosCluster :=
  mkSveltosCluster
    (mkObjectMeta "c1" "ns" "" None
       (Some (<[sveltosClusterClaudieAnnotation := "ok"]> ∅))
       [mkOwnerReference "v1" "Secret" "s1" "uid-s1"] None)
    "s1".

(** A SveltosCluster with the provenance annotation and no owner. *)
Definition cluster_c2 : SveltosCluster :=
  mkSveltosCluster
    (mkObjectMeta "c2" "ns" "" None
       (Some (<[sveltosClusterClaudieAnnotation := "ok"]> ∅)) [] None)
    "s2".

(** A SveltosCluster made by other means: no annotation. *)
Definition cluster_foreign : SveltosCluster :=
  mkSveltosCluster (mkObjectMeta "c1" "ns" "" None None [] None) "other".

(** The secret ns/s1 as a Go literal without type information. *)
Definition secret_untyped : Secret :=
  mkSecret (mkGVK "" "" "")
    (mkObjectMeta "s1" "ns" "uid-s1" (Some (claudieLabels "c1")) None [] None).

(** A SveltosCluster whose owner, the secret ns/s2, never existed. *)
Definition cluster_stale : SveltosCluster :=
  mkSveltosCluster
    (mkObjectMeta "c2" "ns" "" None
       (Some (<[sveltosClusterClaudieAnnotation := "ok"]> ∅))
       [mkOwnerReference "v1" "Secret" "s2" "uid-s2"] None)
    "s2".

Definition world_empty : World := mkWorld ∅ ∅ [] ∅ false.

Definition world_stale : World :=
  mkWorld ∅ (<[key_c2 := cluster_stale]> ∅) [] ∅ false.

(** The secret exists, nothing else does. *)
Definition world_fresh : World :=
  mkWorld (<[key_s1 := secret_s1]> ∅) ∅ [] ∅ false.

Definition world_two_labels : World :=
  mkWorld (<[key_s1 := secret_two_labels]> ∅) ∅ [] ∅ false.

(** The cluster was created and recorded, the secret is gone. *)
Definition world_secret_gone : World :=
  mkWorld ∅ (<[key_c1 := cluster_c1]> ∅) [] (<[key_s1 := key_c1]> ∅) false.

(** As before, and the store fails the second call (the delete). *)
Definition world_delete_fails : World :=
  mkWorld ∅ (<[key_c1 := cluster_c1]> ∅)
    [None; Some (StatusError StatusReasonInternalError)]
    (<[key_s1 := key_c1]> ∅) false.

(** The cluster was created and recorded, the secret is being deleted. *)
Definition world_secret_terminating : World :=
  mkWorld (<[key_s1 := secret_s1_terminating]> ∅) (<[key_c1 := cluster_c1]> ∅) []
    (<[key_s1 := key_c1]> ∅) false.

(** Only the annotated cluster without owner is in the store. *)
Definition world_no_owner : World :=
  mkWorld ∅ (<[key_c2 := cluster_c2]> ∅) [] ∅ false.

(** Only a cluster made by other means is in the store. *)
Definition world_foreign : World :=
  mkWorld ∅ (<[key_c1 := cluster_foreign]> ∅) [] ∅ false.

(** A cluster ns/c1 that a user made and labelled, with its own
    [KubeconfigName]. *)
Definition cluster_labelled : SveltosCluster :=
  mkSveltosCluster
    (mkObjectMeta "c1" "ns" "uid-c1" (Some (<["env" := "prod"]> ∅)) None [] None)
    "other".

(** The secret ns/s1 and the user's cluster ns/c1. *)
Definition world_existing : World :=
  mkWorld (<[key_s1 := secret_s1]> ∅) (<[key_c1 := cluster_labelled]> ∅) [] ∅ false.

(** The store times out on the first call. *)
Definition world_fetch_fails : World :=
  mkWorld (<[key_s1 := secret_s1]> ∅) ∅
    [Some (StatusError StatusReasonServerTimeout)] ∅ false.

(** A secret with two of the three labels whose deletion has begun. *)
Definition secret_two_labels_terminating : Secret :=
  mkSecret SecretGVK
    (mkObjectMeta "s1" "ns" "uid-s1"
       (Some (<[claudieLabel := "claudie"]> (<[claudieCluster := "c1"]> ∅)))
       None [] (Some 1700000000%Z)).

Definition world_two_labels_terminating : World :=
  mkWorld (<[key_s1 := secret_two_labels_terminating]> ∅) ∅ [] ∅ false.

(** The secret ns/s1 after its cluster label was changed to c9. *)
Definition secret_s1_relabelled : Secret :=
  mkSecret SecretGVK
    (mkObjectMeta "s1" "ns" "uid-s1" (Some (claudieLabels "c9")) None [] None).

(** The relabelled secret, with the cluster and the index entry made for the
    earlier label. *)
Definition world_relabelled : World :=
  mkWorld (<[key_s1 := secret_s1_relabelled]> ∅) (<[key_c1 := cluster_c1]> ∅) []
    (<[key_s1 := key_c1]> ∅) false.

(** The secret ns/s1 with all three labels, the cluster label being empty. *)
Definition secret_unnamed : Secret :=
  mkSecret SecretGVK
    (mkObjectMeta "s1" "ns" "uid-s1" (Some (claudieLabels "")) None [] None).

Definition world_unnamed : World :=
  mkWorld (<[key_s1 := secret_unnamed]> ∅) ∅ [] ∅ false.

(** ** Properties of the pure helpers *)

Lemma shouldReconcileSecret_eligible (secret : Secret) :
  shouldReconcileSecret secret = true ↔ eligible secret.
Proof.
  unfold shouldReconcileSecret, eligible, has_label, map_index.
  destruct (om_Labels (secret_Meta secret)) as [labels|].
  - destruct (labels !! claudieLabel), (labels !! claudieKubeconfig),
      (labels !! claudieCluster); split; intros H;
      try discriminate; try done;
      destruct H as (H1 & H2 & H3);
      try (by apply is_Some_None in H1);
      try (by apply is_Some_None in H2);
      try (by apply is_Some_None in H3).
  - split; [discriminate|]. intros (H1 & _). by apply is_Some_None in H1.
Qed.

Lemma shouldReconcileSecret_stamp (s : Secret) :
  shouldReconcileSecret (stamp s) = shouldReconcileSecret s.
Proof. reflexivity. Qed.

Lemma ToAPIVersionAndKind_kind (g : GroupVersionKind) :
  (ToAPIVersionAndKind g).2 = gvk_Kind g.
Proof.
  unfold ToAPIVersionAndKind, gvk_Empty.
  destruct g as [grp ver kind]; simpl.
  destruct grp, ver, kind; reflexivity.
Qed.

Lemma existsb_app_true {A} (f : A → bool) (l : list A) (x : A) :
  f x = true → existsb f (l ++ [x]) = true.
Proof.
  intros Hx. rewrite existsb_app. simpl. rewrite Hx.
  by rewrite orb_true_r.
Qed.

(** After [addOwnerReference] the secret is among the owners. *)
Lemma addOwnerReference_refers (c : SveltosCluster) (secret : Secret) :
  existsb (refersTo secret) (om_OwnerReferences (sc_Meta (addOwnerReference c secret))) = true.
Proof.
  unfold addOwnerReference.
  destruct (existsb (refersTo secret) (om_OwnerReferences (sc_Meta c))) eqn:E; [exact E|].
  pose proof (ToAPIVersionAndKind_kind (secret_GVK secret)) as Hk.
  destruct (ToAPIVersionAndKind (secret_GVK secret)) as [apiVersion kind].
  simpl in *. apply existsb_app_true.
  unfold refersTo. simpl. subst kind.
  by rewrite !bool_decide_eq_true_2.
Qed.

Lemma addOwnerReference_fixed (c : SveltosCluster) (secret : Secret) :
  existsb (refersTo secret) (om_OwnerReferences (sc_Meta c)) = true →
  addOwnerReference c secret = c.
Proof. intros H. unfold addOwnerReference. by rewrite H. Qed.

Lemma addAnnotation_fixed (c : SveltosCluster) :
  map_index (om_Annotations (sc_Meta c)) sveltosClusterClaudieAnnotation = Some "ok" →
  addAnnotation c = c.
Proof.
  destruct c as [[n ns uid l a o d] k]. unfold addAnnotation, map_index. simpl.
  destruct a as [a|]; [|discriminate].
  intros H. unfold with_Meta, set_Annotations. simpl.
  by rewrite insert_id.
Qed.

Lemma addAnnotation_lookup (c : SveltosCluster) :
  map_index (om_Annotations (sc_Meta (addAnnotation c))) sveltosClusterClaudieAnnotation
  = Some "ok".
Proof. unfold addAnnotation. simpl. apply lookup_insert_eq. Qed.

Lemma addOwnerReference_annotations (c : SveltosCluster) (secret : Secret) :
  om_Annotations (sc_Meta (addOwnerReference c secret)) = om_Annotations (sc_Meta c).
Proof.
  unfold addOwnerReference.
  destruct (existsb _ _); [reflexivity|].
  by destruct (ToAPIVersionAndKind _).
Qed.

Lemma mark_fixed (secret : Secret) (c : SveltosCluster) :
  already_marked c secret → mark secret c = c.
Proof.
  intros [Ha Ho]. unfold mark.
  rewrite (addAnnotation_fixed c Ha). by apply addOwnerReference_fixed.
Qed.

Lemma mark_already_marked (secret : Secret) (c : SveltosCluster) :
  already_marked (mark secret c) secret.
Proof.
  split.
  - unfold mark. unfold map_index. rewrite addOwnerReference_annotations.
    apply addAnnotation_lookup.
  - apply addOwnerReference_refers.
Qed.

(** *** The cases of the unit tests *)

Example isSveltosClusterForClaudie_cases :
  isSveltosClusterForClaudie SveltosCluster_zero = false
  ∧ isSveltosClusterForClaudie
      (with_Meta (set_Annotations (Some ∅)) SveltosCluster_zero) = false
  ∧ isSveltosClusterForClaudie
      (with_Meta (set_Annotations (Some (<["other" := "x"]> ∅))) SveltosCluster_zero) = false
  ∧ isSveltosClusterForClaudie cluster_c2 = true.
Proof. repeat split; vm_compute; reflexivity. Qed.

Example getClaudieSecret_cases :
  getClaudieSecret cluster_c1 = Some key_s1
  ∧ getClaudieSecret cluster_c2 = None.
Proof. split; reflexivity. Qed.

Example shouldReconcileSecret_cases :
  shouldReconcileSecret (mkSecret SecretGVK ObjectMeta_zero) = false
  ∧ shouldReconcileSecret secret_two_labels = false
  ∧ shouldReconcileSecret secret_s1 = true.
Proof. repeat split; vm_compute; reflexivity. Qed.

Example addOwnerReference_case :
  om_OwnerReferences (sc_Meta (addOwnerReference cluster_c2 secret_s1))
  = [mkOwnerReference "v1" "Secret" "s1" "uid-s1"].
Proof. reflexivity. Qed.

(** Names the store takes and names it refuses. *)
Example IsDNS1123Subdomain_cases :
  IsDNS1123Subdomain "c1" = true
  ∧ IsDNS1123Subdomain "prod.eu-west-1" = true
  ∧ IsDNS1123Subdomain "" = false
  ∧ IsDNS1123Subdomain "My_Cluster" = false
  ∧ IsDNS1123Subdomain "-c1" = false
  ∧ IsDNS1123Subdomain "c1-" = false
  ∧ IsDNS1123Subdomain "a..b" = false
  ∧ IsDNS1123Subdomain "a-.b" = false.
Proof. repeat split; reflexivity. Qed.

(** [createSveltosCluster] called, as its unit test does, with a secret
    literal that carries no type information: the owner reference has the
    secret's name and an empty kind and version. *)
Example createSveltosCluster_untyped_secret :
  store_writes (events_of (createSveltosCluster secret_untyped world_empty))
  = [EvCreate
       (mkSveltosCluster
          (mkObjectMeta "c1" "ns" "" None
             (Some (<[sveltosClusterClaudieAnnotation := "ok"]> ∅))
             [mkOwnerReference "" "" "s1" "uid-s1"] None)
          "s1")].
Proof. vm_compute. reflexivity. Qed.

(** ** Running computations *)

Lemma bind_run {A B} (m : M A) (f : A → M B) (w : World) :
  (m ≫= f) w =
  match m w with
  | (Ret a, w1, t1) => match f a w1 with (o, w2, t2) => (o, w2, t1 ++ t2) end
  | (Crash why, w1, t1) => (Crash why, w1, t1)
  end.
Proof. reflexivity. Qed.

Lemma ret_run {A} (a : A) (w : World) : (mret a : M A) w = (Ret a, w, []).
Proof. reflexivity. Qed.

Lemma log_run (msg : string) (w : World) : log msg w = (Ret tt, w, [EvLog msg]).
Proof. reflexivity. Qed.

Lemma Lock_run (w : World) :
  Mux w = false → Lock w = (Ret tt, set_Mux true w, [EvLock]).
Proof. intros H. unfold Lock. by rewrite H. Qed.

Lemma Unlock_run (w : World) :
  Mux w = true → Unlock w = (Ret tt, set_Mux false w, [EvUnlock]).
Proof. intros H. unfold Unlock. by rewrite H. Qed.

Lemma NamespacedName_eta (k : NamespacedName) :
  mkNamespacedName (nn_Namespace k) (nn_Name k) = k.
Proof. by destruct k. Qed.

Lemma after_fault_fields (w : World) :
  secrets (after_fault w) = secrets w
  ∧ clusters (after_fault w) = clusters w
  ∧ SecretToCluster (after_fault w) = SecretToCluster w
  ∧ Mux (after_fault w) = Mux w.
Proof.
  unfold after_fault, next_fault. destruct w as [ss cs fs idx mux]; simpl.
  by destruct fs.
Qed.

Lemma client_Get_SveltosCluster_run (key : NamespacedName) (w : World) :
  ∃ r, client_Get_SveltosCluster key w = (Ret r, after_fault w, [EvGet KSveltosCluster key])
       ∧ GetClusterRun key w r.
Proof.
  unfold client_Get_SveltosCluster, after_fault.
  pose proof (after_fault_fields w) as (_ & Hc & _). unfold after_fault in Hc.
  destruct (next_fault w) as [[err|] w1] eqn:E; simpl in *.
  - eexists; split; [reflexivity|]. constructor. by rewrite E.
  - rewrite Hc. destruct (clusters w !! key) as [c|] eqn:Ec.
    + eexists; split; [reflexivity|]. constructor; [by rewrite E|done].
    + eexists; split; [reflexivity|]. constructor; [by rewrite E|done].
Qed.

Lemma client_Get_Secret_run (key : NamespacedName) (w : World) :
  ∃ r, client_Get_Secret key w = (Ret r, after_fault w, [EvGet KSecret key])
       ∧ GetSecretRun key w r.
Proof.
  unfold client_Get_Secret, after_fault.
  pose proof (after_fault_fields w) as (Hs & _). unfold after_fault in Hs.
  destruct (next_fault w) as [[err|] w1] eqn:E; simpl in *.
  - eexists; split; [reflexivity|]. constructor. by rewrite E.
  - rewrite Hs. destruct (secrets w !! key) as [s|] eqn:Es.
    + eexists; split; [reflexivity|]. constructor; [by rewrite E|done].
    + eexists; split; [reflexivity|]. constructor; [by rewrite E|done].
Qed.

Lemma client_Delete_run (obj : SveltosCluster) (w : World) :
  ∃ o w1, client_Delete obj w = (Ret o, w1, [EvDelete obj])
          ∧ WriteRun w (delete (ObjectKey (sc_Meta obj)) (clusters w)) o w1.
Proof.
  unfold client_Delete.
  pose proof (after_fault_fields w) as (_ & Hc & _). unfold after_fault in Hc.
  destruct (next_fault w) as [[err|] w1] eqn:E; simpl in *.
  - do 2 eexists; split; [reflexivity|].
    replace w1 with (after_fault w) by (unfold after_fault; by rewrite E). constructor.
  - rewrite Hc. replace w1 with (after_fault w) by (unfold after_fault; by rewrite E).
    destruct (clusters w !! _); do 2 eexists; (split; [reflexivity|]); constructor.
    by rewrite E.
Qed.

Lemma client_Create_run (obj : SveltosCluster) (w : World) :
  ∃ o w1, client_Create obj w = (Ret o, w1, [EvCreate obj])
          ∧ WriteRun w (<[ObjectKey (sc_Meta obj) := obj]> (clusters w)) o w1.
Proof.
  unfold client_Create.
  pose proof (after_fault_fields w) as (_ & Hc & _). unfold after_fault in Hc.
  destruct (next_fault w) as [[err|] w1] eqn:E; simpl in *.
  - do 2 eexists; split; [reflexivity|].
    replace w1 with (after_fault w) by (unfold after_fault; by rewrite E). constructor.
  - rewrite Hc. replace w1 with (after_fault w) by (unfold after_fault; by rewrite E).
    destruct (IsDNS1123Subdomain (om_Name (sc_Meta obj))); simpl;
      [destruct (clusters w !! _)|];
      do 2 eexists; (split; [reflexivity|]); constructor.
    by rewrite E.
Qed.

Lemma client_Update_run (obj : SveltosCluster) (w : World) :
  ∃ o w1, client_Update obj w = (Ret o, w1, [EvUpdate obj])
          ∧ WriteRun w (<[ObjectKey (sc_Meta obj) := obj]> (clusters w)) o w1.
Proof.
  unfold client_Update.
  pose proof (after_fault_fields w) as (_ & Hc & _). unfold after_fault in Hc.
  destruct (next_fault w) as [[err|] w1] eqn:E; simpl in *.
  - do 2 eexists; split; [reflexivity|].
    replace w1 with (after_fault w) by (unfold after_fault; by rewrite E). constructor.
  - rewrite Hc. replace w1 with (after_fault w) by (unfold after_fault; by rewrite E).
    destruct (clusters w !! _); do 2 eexists; (split; [reflexivity|]); constructor.
    by rewrite E.
Qed.

Lemma WriteRun_fields (w w1 : World) changed o :
  WriteRun w changed o w1 →
  secrets w1 = secrets w ∧ SecretToCluster w1 = SecretToCluster w ∧ Mux w1 = Mux w
  ∧ (clusters w1 = clusters w ∨ (o = None ∧ clusters w1 = changed)).
Proof.
  pose proof (after_fault_fields w) as (Hs & Hc & Hi & Hm).
  intros [err|Hf]; simpl; repeat split; try done; auto.
Qed.

Lemma updateSecretToClusterMap_run (secret : Secret) (ns name : string) (w : World) :
  Mux w = false →
  updateSecretToClusterMap secret ns name w =
  (Ret tt,
   set_SecretToCluster
     (<[ObjectKey (secret_Meta secret) := mkNamespacedName ns name]> (SecretToCluster w)) w,
   [EvLock; EvMapWrite (ObjectKey (secret_Meta secret)) (mkNamespacedName ns name); EvUnlock]).
Proof.
  intros Hm. destruct w as [ss cs fs idx mux]. simpl in Hm. subst mux.
  reflexivity.
Qed.

Lemma cleanSveltosCluster_miss (k : NamespacedName) (w : World) :
  Mux w = false →
  SecretToCluster w !! k = None →
  cleanSveltosCluster k w = (Ret None, w, [EvLock; EvMapRead k; EvUnlock]).
Proof.
  intros Hm Hk. unfold cleanSveltosCluster.
  rewrite bind_run, (Lock_run w Hm), NamespacedName_eta.
  unfold defer_Unlock. rewrite bind_run. unfold map_read.
  replace (SecretToCluster (set_Mux true w) !! k) with (@None NamespacedName)
    by (symmetry; exact Hk).
  rewrite ret_run. rewrite Unlock_run by reflexivity.
  destruct w as [ss cs fs idx mux]. simpl in Hm. by subst mux.
Qed.

Lemma cleanSveltosCluster_hit (k info : NamespacedName) (w : World) :
  Mux w = false →
  SecretToCluster w !! k = Some info →
  CleanRun k info w (cleanSveltosCluster k w).
Proof.
  intros Hm Hk. unfold cleanSveltosCluster.
  rewrite bind_run, (Lock_run w Hm), NamespacedName_eta.
  unfold defer_Unlock. rewrite bind_run. unfold map_read.
  replace (SecretToCluster (set_Mux true w) !! k) with (Some info)
    by (symmetry; exact Hk).
  rewrite bind_run, log_run, bind_run.
  set (wl := set_Mux true w).
  destruct (client_Get_SveltosCluster_run info wl) as (r & Hget & Hr).
  pose proof (after_fault_fields wl) as (Hs1 & Hc1 & Hi1 & Hm1).
  rewrite Hget.
  destruct r as [c|err].
  - destruct (client_Delete_run c (after_fault wl)) as (o & w2 & Hdel & Hw).
    pose proof (WriteRun_fields _ _ _ _ Hw) as (Hs2 & Hi2 & Hm2 & Hc2).
    assert (clusters w !! info = Some c) as Hc.
    { inversion Hr; subst. done. }
    rewrite bind_run, Hdel.
    destruct o as [e|].
    + rewrite ret_run, Unlock_run by (by rewrite Hm2, Hm1).
      simpl. eapply Clean_delete_failed; eauto.
      * destruct Hc2 as [Hc2|[? _]]; [|done]. by rewrite Hc2, Hc1.
      * by rewrite Hi2, Hi1.
    + rewrite bind_run. unfold map_delete. rewrite ret_run.
      rewrite Unlock_run by (simpl; by rewrite Hm2, Hm1).
      simpl. rewrite Hi2, Hi1. simpl.
      eapply Clean_deleted; eauto.
      * inversion Hw; subst. simpl. by rewrite Hc1.
      * by rewrite Hi2, Hi1.
  - destruct (IsNotFound err) eqn:Enf.
    + rewrite bind_run. unfold map_delete. rewrite ret_run.
      rewrite Unlock_run by (simpl; by rewrite Hm1).
      simpl. rewrite Hi1. simpl. by eapply Clean_gone.
    + rewrite ret_run, Unlock_run by (by rewrite Hm1).
      simpl. by eapply Clean_get_failed.
Qed.

Lemma createSveltosCluster_run (secret : Secret) (w : World) :
  Mux w = false →
  CreateRun secret w (createSveltosCluster secret w).
Proof.
  intros Hm. unfold createSveltosCluster.
  rewrite bind_run, log_run, bind_run.
  rewrite updateSecretToClusterMap_run by done.
  fold (targetOf secret). fold (recorded secret w).
  rewrite bind_run.
  destruct (client_Get_SveltosCluster_run (targetOf secret) (recorded secret w))
    as (r & Hget & Hr).
  pose proof (after_fault_fields (recorded secret w)) as (_ & Hc1 & _ & _).
  rewrite Hget.
  destruct r as [c|err].
  - fold (mark secret c).
    destruct (client_Update_run (mark secret c) (after_fault (recorded secret w)))
      as (o & w2 & Hup & Hw).
    rewrite Hup. rewrite Hc1 in Hw. simpl in Hw.
    by eapply (Create_updated secret w c o w2).
  - destruct (IsNotFound err) eqn:Enf.
    + change (client_Create _) with (client_Create (newSveltosCluster secret)).
      destruct (client_Create_run (newSveltosCluster secret) (after_fault (recorded secret w)))
        as (o & w2 & Hcr & Hw).
      rewrite Hcr. rewrite Hc1 in Hw. simpl in Hw.
      by eapply (Create_created secret w err o w2).
    + rewrite ret_run. by eapply Create_get_failed.
Qed.

(** *** A store that answers without failure *)

Lemma next_fault_none (w : World) : faults w = [] → next_fault w = (None, w).
Proof. unfold next_fault. by intros ->. Qed.

Lemma client_Get_Secret_ok (key : NamespacedName) (s : Secret) (w : World) :
  faults w = [] → secrets w !! key = Some s →
  client_Get_Secret key w = (Ret (inl (stamp s)), w, [EvGet KSecret key]).
Proof. intros Hf Hs. unfold client_Get_Secret. by rewrite next_fault_none, Hs. Qed.

Lemma client_Get_SveltosCluster_ok (key : NamespacedName) (c : SveltosCluster) (w : World) :
  faults w = [] → clusters w !! key = Some c →
  client_Get_SveltosCluster key w = (Ret (inl c), w, [EvGet KSveltosCluster key]).
Proof. intros Hf Hs. unfold client_Get_SveltosCluster. by rewrite next_fault_none, Hs. Qed.

Lemma client_Get_SveltosCluster_missing (key : NamespacedName) (w : World) :
  faults w = [] → clusters w !! key = None →
  client_Get_SveltosCluster key w
  = (Ret (inr (StatusError StatusReasonNotFound)), w, [EvGet KSveltosCluster key]).
Proof. intros Hf Hs. unfold client_Get_SveltosCluster. by rewrite next_fault_none, Hs. Qed.

Lemma client_Create_ok (obj : SveltosCluster) (w : World) :
  faults w = [] →
  IsDNS1123Subdomain (om_Name (sc_Meta obj)) = true →
  clusters w !! ObjectKey (sc_Meta obj) = None →
  client_Create obj w
  = (Ret None, set_clusters (<[ObjectKey (sc_Meta obj) := obj]> (clusters w)) w, [EvCreate obj]).
Proof. intros Hf Hn Hs. unfold client_Create. by rewrite next_fault_none, Hn, Hs. Qed.

Lemma client_Create_invalid (obj : SveltosCluster) (w : World) :
  faults w = [] →
  IsDNS1123Subdomain (om_Name (sc_Meta obj)) = false →
  client_Create obj w = (Ret (Some (StatusError StatusReasonInvalid)), w, [EvCreate obj]).
Proof. intros Hf Hn. unfold client_Create. by rewrite next_fault_none, Hn. Qed.

Lemma client_Update_ok (obj old : SveltosCluster) (w : World) :
  faults w = [] → clusters w !! ObjectKey (sc_Meta obj) = Some old →
  client_Update obj w
  = (Ret None, set_clusters (<[ObjectKey (sc_Meta obj) := obj]> (clusters w)) w, [EvUpdate obj]).
Proof. intros Hf Hs. unfold client_Update. by rewrite next_fault_none, Hs. Qed.

Lemma client_Update_missing (obj : SveltosCluster) (w : World) :
  faults w = [] → clusters w !! ObjectKey (sc_Meta obj) = None →
  client_Update obj w
  = (Ret (Some (StatusError StatusReasonNotFound)), w, [EvUpdate obj]).
Proof. intros Hf Hs. unfold client_Update. by rewrite next_fault_none, Hs. Qed.

Lemma ObjectKey_addOwnerReference (c : SveltosCluster) (secret : Secret) :
  ObjectKey (sc_Meta (addOwnerReference c secret)) = ObjectKey (sc_Meta c).
Proof.
  unfold addOwnerReference. destruct (existsb _ _); [done|].
  by destruct (ToAPIVersionAndKind _).
Qed.

Lemma ObjectKey_mark (secret : Secret) (c : SveltosCluster) :
  ObjectKey (sc_Meta (mark secret c)) = ObjectKey (sc_Meta c).
Proof. unfold mark. by rewrite ObjectKey_addOwnerReference. Qed.

Lemma ObjectKey_newSveltosCluster (secret : Secret) :
  ObjectKey (sc_Meta (newSveltosCluster secret)) = targetOf secret.
Proof. unfold newSveltosCluster. by rewrite ObjectKey_mark. Qed.

Lemma om_Name_newSveltosCluster (secret : Secret) :
  om_Name (sc_Meta (newSveltosCluster secret)) = getSveltosClusterName secret.
Proof.
  pose proof (ObjectKey_newSveltosCluster secret) as H.
  unfold ObjectKey, targetOf in H. by inversion H.
Qed.

Lemma createSveltosCluster_ok (s : Secret) (w : World) :
  Mux w = false → faults w = [] →
  createSveltosCluster s w
  = (Ret (upserted s w).1.1, (upserted s w).1.2, recordEvents s ++ (upserted s w).2).
Proof.
  intros Hm Hf. unfold createSveltosCluster, upserted.
  rewrite bind_run, log_run, bind_run.
  rewrite updateSecretToClusterMap_run by done.
  fold (targetOf s). fold (recorded s w). rewrite bind_run.
  destruct (clusters w !! targetOf s) as [c|] eqn:Ec.
  - rewrite (client_Get_SveltosCluster_ok _ c) by done.
    fold (mark s c).
    destruct (clusters w !! ObjectKey (sc_Meta c)) as [old|] eqn:Eo.
    + rewrite (client_Update_ok _ old) by (by rewrite ?ObjectKey_mark).
      by rewrite ObjectKey_mark.
    + by rewrite client_Update_missing by (by rewrite ?ObjectKey_mark).
  - rewrite client_Get_SveltosCluster_missing by done.
    cbv beta iota delta [IsNotFound].
    change (client_Create _) with (client_Create (newSveltosCluster s)).
    destruct (IsDNS1123Subdomain (getSveltosClusterName s)) eqn:En.
    + rewrite client_Create_ok
        by (by rewrite ?ObjectKey_newSveltosCluster, ?om_Name_newSveltosCluster).
      by rewrite ObjectKey_newSveltosCluster.
    + by rewrite client_Create_invalid by (by rewrite ?om_Name_newSveltosCluster).
Qed.

Lemma Reconcile_ok (s : Secret) (w : World) :
  Mux w = false → faults w = [] →
  secrets w !! ObjectKey (secret_Meta s) = Some s →
  IsZero (om_DeletionTimestamp (secret_Meta s)) = true →
  shouldReconcileSecret s = true →
  let req := ObjectKey (secret_Meta s) in
  let up := upserted (stamp s) w in
  Reconcile req w
  = (Ret ((passResult up.1.1).1, None), up.1.2,
     [EvLog "Reconciling"; EvGet KSecret req] ++ recordEvents (stamp s)
       ++ up.2 ++ (passResult up.1.1).2).
Proof.
  intros Hm Hf Hs Hz He req up. unfold Reconcile.
  rewrite bind_run, log_run, bind_run.
  rewrite (client_Get_Secret_ok _ s) by done.
  change (om_DeletionTimestamp (secret_Meta (stamp s)))
    with (om_DeletionTimestamp (secret_Meta s)).
  rewrite Hz. cbv beta iota delta [negb].
  unfold reconcileSecret. rewrite shouldReconcileSecret_stamp, He.
  cbv beta iota delta [negb].
  rewrite bind_run, createSveltosCluster_ok by done.
  fold up. destruct up as [[[e|] w1] t1]; cbn [fst snd passResult].
  - rewrite bind_run, log_run, ret_run. cbn [app]. by rewrite ?app_nil_r, <- ?app_assoc.
  - rewrite ret_run. cbn [app]. by rewrite ?app_nil_r.
Qed.

Lemma eligible_name (s : Secret) (name : string) :
  map_index (om_Labels (secret_Meta s)) claudieCluster = Some name →
  targetOf (stamp s) = mkNamespacedName (om_Namespace (secret_Meta s)) name.
Proof.
  intros H. unfold targetOf, getSveltosClusterName, getSveltosClusterNamespace.
  simpl. by rewrite H.
Qed.

Lemma newSveltosCluster_stamp (s : Secret) :
  newSveltosCluster (stamp s)
  = mkSveltosCluster
      (mkObjectMeta (getSveltosClusterName s) (om_Namespace (secret_Meta s)) "" None
         (Some {[ sveltosClusterClaudieAnnotation := "ok" ]})
         [mkOwnerReference "v1" "Secret" (om_Name (secret_Meta s)) (om_UID (secret_Meta s))]
         None)
      (om_Name (secret_Meta s)).
Proof. reflexivity. Qed.

(** C1 (amended): one pass over an eligible secret without deletion marker and
    without registered cluster, whose cluster label value is a name the store
    accepts, creates exactly one SveltosCluster, in the secret's namespace,
    named by the cluster label, with [KubeconfigName] the secret's name, the
    annotation projectsveltos.io/claudie set to ok and one owner reference,
    of kind Secret and with the secret's name. *)
Theorem C1_eligible_secret_creates_cluster (secret : Secret) (w : World) (name : string) :
  Mux w = false →
  faults w = [] →
  secrets w !! ObjectKey (secret_Meta secret) = Some secret →
  eligible secret →
  IsZero (om_DeletionTimestamp (secret_Meta secret)) = true →
  map_index (om_Labels (secret_Meta secret)) claudieCluster = Some name →
  IsDNS1123Subdomain name = true →
  clusters w !! mkNamespacedName (om_Namespace (secret_Meta secret)) name = None →
  let pass := Reconcile (ObjectKey (secret_Meta secret)) w in
  ∃ c : SveltosCluster,
    outcome_of pass = Ret (Result_zero, None)
    ∧ store_writes (events_of pass) = [EvCreate c]
    ∧ clusters (world_of pass)
      = <[mkNamespacedName (om_Namespace (secret_Meta secret)) name := c]> (clusters w)
    ∧ om_Namespace (sc_Meta c) = om_Namespace (secret_Meta secret)
    ∧ om_Name (sc_Meta c) = name
    ∧ sc_KubeconfigName c = om_Name (secret_Meta secret)
    ∧ map_index (om_Annotations (sc_Meta c)) sveltosClusterClaudieAnnotation = Some "ok"
    ∧ ∃ ref, om_OwnerReferences (sc_Meta c) = [ref]
             ∧ ref_Kind ref = "Secret"
             ∧ ref_Name ref = om_Name (secret_Meta secret).
Proof.
  intros Hm Hf Hs He Hz Hn Hv Hc pass.
  apply shouldReconcileSecret_eligible in He.
  pose proof (Reconcile_ok secret w Hm Hf Hs Hz He) as Hrun.
  cbv zeta in Hrun. unfold upserted in Hrun.
  assert (getSveltosClusterName (stamp secret) = name) as Hname
    by (unfold getSveltosClusterName; cbn [stamp secret_Meta]; by rewrite Hn).
  rewrite (eligible_name secret name Hn), Hc, Hname, Hv in Hrun.
  cbn [fst snd passResult] in Hrun.
  exists (newSveltosCluster (stamp secret)).
  subst pass. rewrite Hrun. unfold outcome_of, events_of, world_of. cbn [fst snd].
  split; [reflexivity|]. split; [reflexivity|]. split; [reflexivity|].
  rewrite newSveltosCluster_stamp. cbn [sc_Meta om_Namespace om_Name sc_KubeconfigName
    om_Annotations om_OwnerReferences map_index].
  split; [reflexivity|].
  split; [unfold getSveltosClusterName; by rewrite Hn|].
  split; [reflexivity|].
  split; [apply lookup_singleton_eq|].
  eexists. split; [reflexivity|]. split; reflexivity.
Qed.

Lemma upserted_twice (s : Secret) (w : World) :
  let w1 := (upserted s w).1.2 in
  clusters (upserted s w1).1.2 = clusters w1
  ∧ SecretToCluster (upserted s w1).1.2 = SecretToCluster w1.
Proof.
  cbv zeta. destruct (upserted s w) as [[o w1] t] eqn:E. cbn [fst snd].
  unfold upserted in E.
  destruct (clusters w !! targetOf s) as [c|] eqn:Ec.
  - destruct (clusters w !! ObjectKey (sc_Meta c)) as [old|] eqn:Eo;
      inversion E; subst o w1 t; clear E; unfold upserted;
      cbn [clusters recorded set_clusters set_SecretToCluster SecretToCluster].
    + destruct (decide (ObjectKey (sc_Meta c) = targetOf s)) as [Heq|Hne].
      * rewrite Heq, lookup_insert_eq, ObjectKey_mark, Heq, lookup_insert_eq.
        cbn [fst snd clusters recorded set_clusters set_SecretToCluster SecretToCluster].
        rewrite (mark_fixed s (mark s c)) by apply mark_already_marked.
        by rewrite !insert_insert_eq.
      * rewrite lookup_insert_ne, Ec, lookup_insert_eq by done.
        cbn [fst snd clusters recorded set_clusters set_SecretToCluster SecretToCluster].
        by rewrite !insert_insert_eq.
    + rewrite Ec, Eo.
      cbn [fst snd clusters recorded set_clusters set_SecretToCluster SecretToCluster].
      by rewrite insert_insert_eq.
  - destruct (IsDNS1123Subdomain (getSveltosClusterName s)) eqn:En;
      inversion E; subst o w1 t; clear E; unfold upserted;
      cbn [clusters recorded set_clusters set_SecretToCluster SecretToCluster].
    + rewrite lookup_insert_eq, ObjectKey_newSveltosCluster, lookup_insert_eq.
      cbn [fst snd clusters recorded set_clusters set_SecretToCluster SecretToCluster].
      unfold newSveltosCluster at 1.
      rewrite (mark_fixed s (mark s _)) by apply mark_already_marked.
      fold (newSveltosCluster s).
      by rewrite !insert_insert_eq.
    + rewrite Ec, En.
      cbn [fst snd clusters recorded set_clusters set_SecretToCluster SecretToCluster].
      by rewrite insert_insert_eq.
Qed.

Lemma upserted_fields (s : Secret) (w : World) :
  let w1 := (upserted s w).1.2 in
  secrets w1 = secrets w ∧ faults w1 = faults w ∧ Mux w1 = Mux w.
Proof.
  cbv zeta. unfold upserted.
  destruct (clusters w !! targetOf s) as [c|];
    [|by destruct (IsDNS1123Subdomain (getSveltosClusterName s))].
  by destruct (clusters w !! ObjectKey (sc_Meta c)).
Qed.

(** C8: applying [addAnnotation] and [addOwnerReference] again changes
    nothing: the second application returns the cluster it is given, a cluster
    that already carries the annotation and an owner reference with the
    secret's kind and name is left as it is, and a second pass over the same
    eligible secret leaves the registered clusters and the index as the first
    pass left them. *)
Theorem C8_marking_twice_is_marking_once (secret : Secret) (c : SveltosCluster) :
  let once := addOwnerReference (addAnnotation c) secret in
  addOwnerReference (addAnnotation once) secret = once
  ∧ (already_marked c secret → once = c)
  ∧ (∀ w : World,
       Mux w = false →
       faults w = [] →
       secrets w !! ObjectKey (secret_Meta secret) = Some secret →
       eligible secret →
       IsZero (om_DeletionTimestamp (secret_Meta secret)) = true →
       let req := ObjectKey (secret_Meta secret) in
       let w1 := world_of (Reconcile req w) in
       let w2 := world_of (Reconcile req w1) in
       clusters w2 = clusters w1 ∧ SecretToCluster w2 = SecretToCluster w1).
Proof.
  cbv zeta. split; [|split].
  - apply (mark_fixed secret (mark secret c)), mark_already_marked.
  - apply mark_fixed.
  - intros w Hm Hf Hs He Hz.
    apply shouldReconcileSecret_eligible in He.
    rewrite (Reconcile_ok secret w Hm Hf Hs Hz He).
    unfold world_of at 2 4 5. cbn [fst snd].
    pose proof (upserted_fields (stamp secret) w) as (Hs1 & Hf1 & Hm1). cbv zeta in *.
    rewrite Reconcile_ok; try done; try congruence.
    unfold world_of. cbn [fst snd].
    apply upserted_twice.
Qed.

(** C4: when the fetch of the secret returns not-found and the cleanup
    returns no error, the pass returns the zero result (no requeue) and no
    error. *)
Theorem C4_not_found_is_success (req : NamespacedName) (w w1 w2 : World)
    (err : error) (t0 t1 : list Event) :
  client_Get_Secret req w = (Ret (inr err), w1, t0) →
  IsNotFound err = true →
  cleanSveltosCluster req w1 = (Ret None, w2, t1) →
  Reconcile req w =
    (Ret (Result_zero, None), w2,
     EvLog "Reconciling" :: t0 ++ t1 ++ [EvLog "Failed to fetch Secret: <nil>"])
  ∧ Requeue Result_zero = false
  ∧ RequeueAfter Result_zero = 0%Z.
Proof.
  intros Hget Hnf Hclean. split; [|done]. unfold Reconcile.
  rewrite bind_run, log_run, bind_run, Hget, Hnf.
  rewrite bind_run, Hclean, bind_run, log_run, ret_run.
  reflexivity.
Qed.

(** C6: a secret that is fetched, has a zero deletion timestamp and lacks one
    of the three labels (or has no labels) makes the pass return success
    without requeue; the pass issues no store call besides the fetch and
    leaves the registered clusters and the index as they were. *)
Theorem C6_ineligible_secret_untouched (req : NamespacedName) (w w1 : World)
    (secret : Secret) (t0 : list Event) :
  client_Get_Secret req w = (Ret (inl secret), w1, t0) →
  IsZero (om_DeletionTimestamp (secret_Meta secret)) = true →
  ¬ eligible secret →
  Reconcile req w = (Ret (Result_zero, None), w1, [EvLog "Reconciling"; EvGet KSecret req])
  ∧ store_writes (events_of (Reconcile req w)) = []
  ∧ clusters w1 = clusters w
  ∧ SecretToCluster w1 = SecretToCluster w.
Proof.
  intros Hget Hz Hne.
  assert (shouldReconcileSecret secret = false) as Hs.
  { destruct (shouldReconcileSecret secret) eqn:E; [|done].
    by apply shouldReconcileSecret_eligible in E. }
  destruct (client_Get_Secret_run req w) as (r & Hrun & _).
  rewrite Hrun in Hget. inversion Hget; subst r w1 t0. clear Hget.
  pose proof (after_fault_fields w) as (_ & Hc & Hi & _).
  assert (Reconcile req w
          = (Ret (Result_zero, None), after_fault w, [EvLog "Reconciling"; EvGet KSecret req]))
    as Hpass.
  { unfold Reconcile. rewrite bind_run, log_run, bind_run, Hrun, Hz.
    cbv beta iota delta [negb]. unfold reconcileSecret. rewrite Hs.
    cbv beta iota delta [negb]. by rewrite ret_run. }
  rewrite Hpass. done.
Qed.

(** C5: when the secret key is in the index, a failed delete of the recorded
    cluster is returned to the caller and leaves the index as it was; the
    entry is gone afterwards exactly when the fetch of the cluster returned
    not-found or the delete succeeded, and otherwise the index is unchanged.
    ([fetched] is the get of the recorded cluster, issued once the mutex is
    taken.) *)
Theorem C5_index_kept_until_cluster_gone (secretRef info : NamespacedName) (w : World) :
  Mux w = false →
  SecretToCluster w !! secretRef = Some info →
  let fetched := client_Get_SveltosCluster info (set_Mux true w) in
  let cleaned := cleanSveltosCluster secretRef w in
  (∀ c e w2 t2,
      outcome_of fetched = Ret (inl c) →
      client_Delete c (world_of fetched) = (Ret (Some e), w2, t2) →
      outcome_of cleaned = Ret (Some e)
      ∧ SecretToCluster (world_of cleaned) = SecretToCluster w)
  ∧ (SecretToCluster (world_of cleaned) !! secretRef = None ↔
       (∃ err, outcome_of fetched = Ret (inr err) ∧ IsNotFound err = true)
       ∨ (∃ c w2 t2, outcome_of fetched = Ret (inl c)
                     ∧ client_Delete c (world_of fetched) = (Ret None, w2, t2)))
  ∧ (SecretToCluster (world_of cleaned) !! secretRef = None
     ∨ SecretToCluster (world_of cleaned) = SecretToCluster w).
Proof.
  intros Hm Hidx fetched cleaned. subst fetched cleaned.
  pose proof (cleanSveltosCluster_hit secretRef info w Hm Hidx) as Hrun.
  pose proof (after_fault_fields (set_Mux true w)) as (_ & _ & Hi & _).
  change (SecretToCluster (set_Mux true w)) with (SecretToCluster w) in Hi.
  inversion Hrun as [err wl Hget Hnf Heq | err wl Hget Hnf Heq
                    | c e w2 wl Hget Hc Hdel Hc2 Hi2 Heq
                    | c w2 wl Hget Hc Hdel Hc2 Hi2 Heq];
    subst wl; rewrite Hget; unfold outcome_of, world_of; cbn [fst snd];
    cbn [SecretToCluster set_Mux set_SecretToCluster].
  - split; [intros ????; discriminate|]. rewrite lookup_delete_eq.
    split; [|by left]. split; [|done]. intros _. left. by exists err.
  - rewrite Hi, Hidx. split; [intros ????; discriminate|].
    split; [|by right]. split; [discriminate|].
    intros [(err' & [= <-] & Hnf') | (c & w2 & t2 & [=] & _)]. congruence.
  - rewrite Hi2, Hidx. split.
    + intros c' e' w2' t2' [= <-] Hdel'. rewrite Hdel in Hdel'. by inversion Hdel'.
    + split; [|by right]. split; [discriminate|].
      intros [(err' & [=] & _) | (c' & w2' & t2' & [= <-] & Hdel')].
      rewrite Hdel in Hdel'. discriminate.
  - rewrite lookup_delete_eq. split.
    + intros c' e' w2' t2' [= <-] Hdel'. rewrite Hdel in Hdel'. discriminate.
    + split; [|by left]. split; [|done]. intros _. right. by exists c, w2, [EvDelete c].
Qed.

(** C10: for an eligible secret, [createSveltosCluster] writes the entry
    secret key -> (secret namespace, cluster label value) to the index before
    its first store call, and whatever the store answers afterwards the pass
    returns with that entry in the index. *)
Theorem C10_index_recorded_first (secret : Secret) (w : World) :
  Mux w = false →
  eligible secret →
  let key := ObjectKey (secret_Meta secret) in
  ∃ name,
    map_index (om_Labels (secret_Meta secret)) claudieCluster = Some name
    ∧ let target := mkNamespacedName (om_Namespace (secret_Meta secret)) name in
      ∃ o w' rest,
        createSveltosCluster secret w
        = (Ret o, w',
           [EvLog "reconciling secret"; EvLock; EvMapWrite key target; EvUnlock;
            EvGet KSveltosCluster target] ++ rest)
        ∧ SecretToCluster w' !! key = Some target
        ∧ List.filter is_map_access rest = [].
Proof.
  intros Hm He key.
  destruct He as (_ & _ & [name Hn]). exists name. split; [exact Hn|].
  intros target.
  assert (targetOf secret = target) as Ht.
  { unfold targetOf, getSveltosClusterName, getSveltosClusterNamespace. by rewrite Hn. }
  pose proof (createSveltosCluster_run secret w Hm) as Hrun.
  pose proof (after_fault_fields (recorded secret w)) as (_ & _ & Hi & _).
  assert (SecretToCluster (recorded secret w) !! key = Some target) as Hrec.
  { unfold recorded. cbn [SecretToCluster set_SecretToCluster].
    rewrite Ht. apply lookup_insert_eq. }
  inversion Hrun as [err Hget Hnf Heq | err o w2 Hget Hnf Hw Hcr Heq
                    | c o w2 Hget Hw Hup Heq];
    unfold recordEvents; rewrite Ht; fold key.
  - exists (Some err), (after_fault (recorded secret w)), [].
    split; [reflexivity|]. split; [by rewrite Hi|reflexivity].
  - exists o, w2, [EvCreate (newSveltosCluster secret)].
    split; [reflexivity|]. split; [|reflexivity].
    apply WriteRun_fields in Hw as (_ & Hi2 & _). by rewrite Hi2, Hi.
  - exists o, w2, [EvUpdate (mark secret c)].
    split; [reflexivity|]. split; [|reflexivity].
    apply WriteRun_fields in Hw as (_ & Hi2 & _). by rewrite Hi2, Hi.
Qed.

(** ** The sweep *)

Lemma isSveltosClusterForClaudie_false (c : SveltosCluster) :
  isSveltosClusterForClaudie c = false
  ↔ map_index (om_Annotations (sc_Meta c)) sveltosClusterClaudieAnnotation = None.
Proof.
  unfold isSveltosClusterForClaudie, map_index.
  destruct (om_Annotations (sc_Meta c)) as [a|]; [|done].
  rewrite bool_decide_eq_false. split.
  - intros H. by apply eq_None_not_Some.
  - intros H. by apply eq_None_not_Some.
Qed.

Lemma sweepItem_skip (c : SveltosCluster) (w : World) :
  skipped c → sweepItem c w = (Ret tt, w, []).
Proof.
  intros [Hd|Ha]; unfold sweepItem.
  - by rewrite Hd.
  - apply isSveltosClusterForClaudie_false in Ha. rewrite Ha.
    by destruct (IsZero _).
Qed.

Lemma sweepItem_nil_owner (c : SveltosCluster) (w : World) :
  IsZero (om_DeletionTimestamp (sc_Meta c)) = true →
  isSveltosClusterForClaudie c = true →
  getClaudieSecret c = None →
  sweepItem c w
  = (Crash NilPointerDereference, w,
     [EvLog ("found SveltosCluster " +:+ om_Namespace (sc_Meta c) +:+ "/"
             +:+ om_Name (sc_Meta c) +:+ " with no Claudie reference")]).
Proof.
  intros Hz Ha Ho. unfold sweepItem. rewrite Hz, Ha, Ho.
  cbv beta iota delta [negb]. rewrite bind_run, log_run, bind_run. reflexivity.
Qed.

(** What one item can do to the store: nothing, or its own deletion, and
    then it is not one of the skipped. *)
Lemma sweepItem_effect (c : SveltosCluster) (w : World) :
  (∀ e, e ∈ events_of (sweepItem c w) → is_store_write e = true →
        e = EvDelete c ∧ ¬ skipped c)
  ∧ (clusters (world_of (sweepItem c w)) = clusters w
     ∨ (¬ skipped c
        ∧ clusters (world_of (sweepItem c w))
          = delete (ObjectKey (sc_Meta c)) (clusters w))).
Proof.
  destruct (IsZero (om_DeletionTimestamp (sc_Meta c))) eqn:Hz;
    [|rewrite sweepItem_skip by (by left); split; [by intros e ?%elem_of_nil|by left]].
  destruct (isSveltosClusterForClaudie c) eqn:Ha;
    [|rewrite sweepItem_skip by (right; by apply isSveltosClusterForClaudie_false);
      split; [by intros e ?%elem_of_nil|by left]].
  assert (¬ skipped c) as Hns.
  { intros [H|H]; [congruence|].
    apply isSveltosClusterForClaudie_false in H. congruence. }
  destruct (getClaudieSecret c) as [key|] eqn:Ho.
  - unfold sweepItem. rewrite Hz, Ha, Ho. cbv beta iota delta [negb].
    rewrite bind_run, ret_run, bind_run. unfold isClaudieSecretRemoved.
    rewrite bind_run.
    destruct (client_Get_Secret_run key w) as (r & Hget & _). rewrite Hget.
    pose proof (after_fault_fields w) as (_ & Hc & _ & _).
    set (removed := match r with
                    | inl secret => negb (IsZero (om_DeletionTimestamp (secret_Meta secret)))
                    | inr err => IsNotFound err
                    end).
    assert ((match r with
             | inl secret => mret (negb (IsZero (om_DeletionTimestamp (secret_Meta secret))))
             | inr err => mret (IsNotFound err)
             end : M bool) (after_fault w) = (Ret removed, after_fault w, [])) as ->
      by (by destruct r).
    destruct removed; cbv beta iota delta [negb].
    + rewrite bind_run.
      destruct (client_Delete_run c (after_fault w)) as (o & w2 & Hdel & Hw).
      rewrite Hdel.
      apply WriteRun_fields in Hw as (_ & _ & _ & Hc2). rewrite Hc in Hc2.
      destruct o as [e0|]; [rewrite log_run|rewrite ret_run];
        unfold events_of, world_of; cbn [fst snd app]; (split;
          [ intros e He Hsw;
            repeat (apply elem_of_cons in He as [->|He]; [done|]);
            by apply elem_of_nil in He
          | destruct Hc2 as [Hc2|[_ Hc2]]; [by left|right; by rewrite Hc2] ]).
    + rewrite ret_run. unfold events_of, world_of. cbn [fst snd app]. split.
      * intros e He Hsw. apply list_elem_of_singleton in He. by subst e.
      * left. by rewrite Hc.
  - rewrite sweepItem_nil_owner by done. unfold events_of, world_of. cbn [fst snd]. split.
    + intros e He Hsw. apply list_elem_of_singleton in He. by subst e.
    + by left.
Qed.

Lemma sweepItems_cons (c : SveltosCluster) (rest : list SveltosCluster) (w : World) :
  sweepItems (c :: rest) w =
  match sweepItem c w with
  | (Ret _, w1, t1) =>
      (outcome_of (sweepItems rest w1), world_of (sweepItems rest w1),
       t1 ++ events_of (sweepItems rest w1))
  | (Crash why, w1, t1) => (Crash why, w1, t1)
  end.
Proof.
  cbn [sweepItems]. rewrite bind_run.
  destruct (sweepItem c w) as [[[[]|why] w1] t1]; [|done].
  by destruct (sweepItems rest w1) as [[o2 w2] t2].
Qed.

Lemma sweepItems_deletes (items : list SveltosCluster) (w : World) (e : Event) :
  e ∈ events_of (sweepItems items w) → is_store_write e = true →
  ∃ c, c ∈ items ∧ e = EvDelete c ∧ ¬ skipped c.
Proof.
  revert w. induction items as [|c rest IH]; intros w He Hsw.
  - by apply elem_of_nil in He.
  - rewrite sweepItems_cons in He.
    pose proof (sweepItem_effect c w) as [Hev _].
    destruct (sweepItem c w) as [[[[]|why] w1] t1]; unfold events_of in *; cbn [fst snd] in *.
    + apply elem_of_app in He as [He|He].
      * destruct (Hev e He Hsw) as [-> Hns]. exists c. split; [left|done].
      * destruct (IH w1 He Hsw) as (c' & Hin & Hc').
        exists c'. split; [by right|done].
    + destruct (Hev e He Hsw) as [-> Hns]. exists c. split; [left|done].
Qed.

Lemma sweepItems_preserve (items : list SveltosCluster) (w : World)
    (k : NamespacedName) (c : SveltosCluster) :
  clusters w !! k = Some c →
  (∀ item, item ∈ items → ObjectKey (sc_Meta item) = k → skipped item) →
  clusters (world_of (sweepItems items w)) !! k = Some c.
Proof.
  revert w. induction items as [|item rest IH]; intros w Hk Hitems.
  - exact Hk.
  - rewrite sweepItems_cons.
    pose proof (sweepItem_effect item w) as [_ Hst].
    assert (clusters (world_of (sweepItem item w)) !! k = Some c) as Hk1.
    { destruct Hst as [->|[Hns ->]]; [done|].
      rewrite lookup_delete_ne; [done|].
      intros Heq. apply Hns, Hitems; [left|done]. }
    destruct (sweepItem item w) as [[[[]|why] w1] t1]; unfold world_of in *;
      cbn [fst snd] in *; [|done].
    apply IH; [done|]. intros item' Hin. apply Hitems. by right.
Qed.

Lemma client_List_run (w : World) :
  ∃ r, client_List w = (Ret r, after_fault w, [EvList])
       ∧ (r = inl ((map_to_list (clusters w)).*2) ∨ ∃ err, r = inr err).
Proof.
  unfold client_List, after_fault.
  pose proof (after_fault_fields w) as (_ & Hc & _). unfold after_fault in Hc.
  destruct (next_fault w) as [[err|] w1] eqn:E; cbn [fst snd] in *.
  - eexists. split; [reflexivity|]. right. by exists err.
  - eexists. split; [reflexivity|]. left. by rewrite Hc.
Qed.

Lemma emit_run (e : Event) (w : World) : emit e w = (Ret tt, w, [e]).
Proof. reflexivity. Qed.

Lemma sweepTick_run (w : World) :
  sweepTick w = (Ret tt, after_fault w, [EvSleep (2 * Minute); EvList])
  ∨ sweepTick w
    = (outcome_of (sweepItems ((map_to_list (clusters w)).*2) (after_fault w)),
       world_of (sweepItems ((map_to_list (clusters w)).*2) (after_fault w)),
       [EvSleep (2 * Minute); EvList]
         ++ events_of (sweepItems ((map_to_list (clusters w)).*2) (after_fault w))).
Proof.
  unfold sweepTick. rewrite bind_run, emit_run, bind_run.
  destruct (client_List_run w) as (r & -> & [-> | [err ->]]).
  - right. by destruct (sweepItems _ _) as [[o2 w2] t2].
  - left. by rewrite ret_run.
Qed.

Lemma sweepTick_deletes (w : World) (obj : SveltosCluster) :
  EvDelete obj ∈ events_of (sweepTick w) → ¬ skipped obj.
Proof.
  intros He.
  destruct (sweepTick_run w) as [Hrun|Hrun]; rewrite Hrun in He;
    unfold events_of at 1 in He; cbn [fst snd app] in He.
  - apply elem_of_cons in He as [?|He]; [done|].
    apply list_elem_of_singleton in He. done.
  - apply elem_of_cons in He as [?|He]; [done|].
    apply elem_of_cons in He as [?|He]; [done|].
    destruct (sweepItems_deletes _ _ _ He eq_refl) as (c & _ & [= ->] & Hns). done.
Qed.

Lemma cleanStaleSveltosCluster_deletes (ticks : nat) (w : World) (obj : SveltosCluster) :
  EvDelete obj ∈ events_of (cleanStaleSveltosCluster ticks w) → ¬ skipped obj.
Proof.
  revert w. induction ticks as [|n IH]; intros w He.
  - by apply elem_of_nil in He.
  - cbn [cleanStaleSveltosCluster] in He. rewrite bind_run in He.
    pose proof (sweepTick_deletes w obj) as Htick.
    destruct (sweepTick w) as [[[[]|why] w1] t1]; unfold events_of in *; cbn [fst snd] in *.
    + specialize (IH w1).
      destruct (cleanStaleSveltosCluster n w1) as [[o2 w2] t2]; cbn [fst snd] in *.
      apply elem_of_app in He as [He|He]; [by apply Htick|by apply IH].
    + by apply Htick.
Qed.

(** The stale cluster of test/fv: its secret never existed, one tick deletes
    it. *)
Example sweepTick_deletes_stale :
  outcome_of (sweepTick world_stale) = Ret tt
  ∧ events_of (sweepTick world_stale)
    = [EvSleep (2 * Minute); EvList; EvGet KSecret (mkNamespacedName "ns" "s2");
       EvDelete cluster_stale]
  ∧ clusters (world_of (sweepTick world_stale)) !! key_c2 = None.
Proof. repeat split; vm_compute; reflexivity. Qed.

(** C7: a listed cluster that is marked for deletion or lacks the provenance
    annotation is passed over without any store call (so before any look at
    its secret); every delete the sweep issues, in any number of rounds, names
    a cluster that is neither; and such a cluster is still in the store after
    a tick. *)
Theorem C7_sweep_skips_foreign_and_terminating (w : World) :
  (∀ c w0, skipped c → sweepItem c w0 = (Ret tt, w0, []))
  ∧ (∀ ticks obj,
       EvDelete obj ∈ events_of (cleanStaleSveltosCluster ticks w) → ¬ skipped obj)
  ∧ (∀ k c,
       well_keyed (clusters w) →
       clusters w !! k = Some c →
       skipped c →
       clusters (world_of (sweepTick w)) !! k = Some c).
Proof.
  split; [intros c w0; apply sweepItem_skip|]. split.
  - intros ticks obj. apply cleanStaleSveltosCluster_deletes.
  - intros k c Hwk Hk Hskip.
    pose proof (after_fault_fields w) as (_ & Hc & _ & _).
    destruct (sweepTick_run w) as [-> | ->]; unfold world_of at 1; cbn [fst snd].
    + by rewrite Hc.
    + apply sweepItems_preserve; [by rewrite Hc|].
      intros item Hin Hkey.
      apply list_elem_of_fmap in Hin as ([k' item'] & -> & Hin). cbn [snd] in *.
      apply elem_of_map_to_list in Hin.
      pose proof (Hwk k' item' Hin) as Hk'. rewrite Hkey in Hk'. subst k'.
      rewrite Hk in Hin. by inversion Hin; subst.
Qed.

(** ** Scope of the mutex *)

Lemma CreateRun_Mux (secret : Secret) (w : World) r :
  CreateRun secret w r → Mux (world_of r) = Mux w.
Proof.
  pose proof (after_fault_fields (recorded secret w)) as (_ & _ & _ & Hm).
  intros [err Hget Hnf | err o w2 Hget Hnf Hw Hcr | c o w2 Hget Hw Hup];
    unfold world_of; cbn [fst snd]; try done;
    apply WriteRun_fields in Hw as (_ & _ & Hm2 & _); by rewrite Hm2.
Qed.



(** C2 fails on the code: for the eligible secret ns/s1 with a deletion
    timestamp, the pass deletes ns/c1 and drops the index entry, then goes on
    to record the entry again and to create ns/c1 anew. *)
Theorem C2_terminating_secret_gets_cluster_back :
  let pass := Reconcile key_s1 world_secret_terminating in
  outcome_of pass = Ret (Result_zero, None)
  ∧ store_writes (events_of pass) = [EvDelete cluster_c1; EvCreate cluster_c1]
  ∧ List.filter is_map_access (events_of pass)
    = [EvMapRead key_s1; EvMapDelete key_s1; EvMapWrite key_s1 key_c1]
  ∧ clusters (world_of pass) !! key_c1 = Some cluster_c1
  ∧ SecretToCluster (world_of pass) !! key_s1 = Some key_c1.
Proof. cbv zeta. repeat split; vm_compute; reflexivity. Qed.

(** C3 fails on the code: for the annotated cluster ns/c2 without owner the
    tick logs the anomaly and then dereferences the nil key. *)
Theorem C3_sweep_panics_without_owner :
  sweepTick world_no_owner
  = (Crash NilPointerDereference, world_no_owner,
     [EvSleep (2 * Minute); EvList;
      EvLog "found SveltosCluster ns/c2 with no Claudie reference"]).
Proof. vm_compute. reflexivity. Qed.

(** ** The theorems on the example objects *)

Lemma eligible_secret_s1 : eligible secret_s1.
Proof. repeat split; vm_compute; by eexists. Defined.

Lemma well_keyed_singleton (k : NamespacedName) (c : SveltosCluster) :
  ObjectKey (sc_Meta c) = k → well_keyed (<[k := c]> ∅).
Proof.
  intros Hk k' c' H. apply lookup_insert_Some in H as [[<- <-]|[_ H]]; [done|].
  by rewrite lookup_empty in H.
Defined.

(** The secret ns/s1 in a store without clusters: ns/c1 is created. *)
Lemma C1_witness :
  eligible secret_s1
  ∧ IsDNS1123Subdomain "c1" = true
  ∧ clusters world_fresh !! key_c1 = None
  ∧ ∃ c : SveltosCluster,
      store_writes (events_of (Reconcile key_s1 world_fresh)) = [EvCreate c]
      ∧ clusters (world_of (Reconcile key_s1 world_fresh)) !! key_c1 = Some c
      ∧ sc_KubeconfigName c = "s1".
Proof.
  split; [exact eligible_secret_s1|]. split; [reflexivity|].
  split; [vm_compute; reflexivity|].
  destruct (C1_eligible_secret_creates_cluster secret_s1 world_fresh "c1")
    as (c & _ & Hw & Hc & _ & _ & Hk & _).
  - reflexivity.
  - reflexivity.
  - vm_compute; reflexivity.
  - exact eligible_secret_s1.
  - reflexivity.
  - vm_compute; reflexivity.
  - reflexivity.
  - vm_compute; reflexivity.
  - exists c. split; [exact Hw|]. split; [|exact Hk].
    change (ObjectKey (secret_Meta secret_s1)) with key_s1 in Hc.
    rewrite Hc. apply lookup_insert_eq.
Defined.

(** C1 as stated fails: the secret ns/s1 has all three labels, no deletion
    timestamp and no registered cluster, but its cluster label is empty.  The
    pass asks the store to create a cluster without name, the store refuses,
    no cluster exists afterwards and the pass asks for a requeue. *)
Lemma C1_unnamed_cluster_is_not_created :
  eligible secret_unnamed
  ∧ IsZero (om_DeletionTimestamp (secret_Meta secret_unnamed)) = true
  ∧ clusters world_unnamed = ∅
  ∧ outcome_of (Reconcile key_s1 world_unnamed) = Ret (mkResult true 10000000000, None)
  ∧ clusters (world_of (Reconcile key_s1 world_unnamed)) = ∅
  ∧ List.filter is_store_call (events_of (Reconcile key_s1 world_unnamed))
    = [EvGet KSecret key_s1; EvGet KSveltosCluster (mkNamespacedName "ns" "");
       EvCreate (newSveltosCluster secret_unnamed)].
Proof.
  split; [repeat split; vm_compute; by eexists|].
  repeat split; vm_compute; reflexivity.
Qed.

(** The secret is gone and its cluster is cleaned up: success, no requeue. *)
Lemma C4_witness :
  outcome_of (client_Get_Secret key_s1 world_secret_gone)
  = Ret (inr (StatusError StatusReasonNotFound))
  ∧ outcome_of (cleanSveltosCluster key_s1 world_secret_gone) = Ret None
  ∧ outcome_of (Reconcile key_s1 world_secret_gone) = Ret (Result_zero, None).
Proof.
  split; [vm_compute; reflexivity|]. split; [vm_compute; reflexivity|].
  destruct (C4_not_found_is_success key_s1 world_secret_gone world_secret_gone
              (world_of (cleanSveltosCluster key_s1 world_secret_gone))
              (StatusError StatusReasonNotFound)
              [EvGet KSecret key_s1]
              (events_of (cleanSveltosCluster key_s1 world_secret_gone)))
    as [Hpass _].
  - vm_compute; reflexivity.
  - reflexivity.
  - vm_compute; reflexivity.
  - rewrite Hpass. reflexivity.
Defined.

(** The delete of ns/c1 fails: the error is returned and ns/s1 stays in the
    index. *)
Lemma C5_witness :
  SecretToCluster world_delete_fails !! key_s1 = Some key_c1
  ∧ outcome_of (cleanSveltosCluster key_s1 world_delete_fails)
    = Ret (Some (StatusError StatusReasonInternalError))
  ∧ SecretToCluster (world_of (cleanSveltosCluster key_s1 world_delete_fails))
    = SecretToCluster world_delete_fails.
Proof.
  split; [vm_compute; reflexivity|].
  destruct (C5_index_kept_until_cluster_gone key_s1 key_c1 world_delete_fails)
    as [Hfail _].
  - reflexivity.
  - vm_compute; reflexivity.
  - eapply (Hfail cluster_c1 (StatusError StatusReasonInternalError)).
    + vm_compute; reflexivity.
    + vm_compute; reflexivity.
Defined.

(** The secret with two labels: nothing but the fetch. *)
Lemma C6_witness :
  ¬ eligible secret_two_labels
  ∧ Reconcile key_s1 world_two_labels
    = (Ret (Result_zero, None), world_two_labels,
       [EvLog "Reconciling"; EvGet KSecret key_s1]).
Proof.
  assert (¬ eligible secret_two_labels) as Hne.
  { intros (_ & H & _). vm_compute in H. by apply is_Some_None in H. }
  split; [exact Hne|].
  destruct (C6_ineligible_secret_untouched key_s1 world_two_labels world_two_labels
              secret_two_labels [EvGet KSecret key_s1]) as [Hpass _].
  - vm_compute; reflexivity.
  - reflexivity.
  - exact Hne.
  - exact Hpass.
Defined.

(** A cluster made by other means survives the tick. *)
Lemma C7_witness :
  skipped cluster_foreign
  ∧ clusters (world_of (sweepTick world_foreign)) !! key_c1 = Some cluster_foreign.
Proof.
  assert (skipped cluster_foreign) as Hs by (right; reflexivity).
  split; [exact Hs|].
  destruct (C7_sweep_skips_foreign_and_terminating world_foreign) as (_ & _ & Hkeep).
  apply Hkeep.
  - by apply well_keyed_singleton.
  - vm_compute; reflexivity.
  - exact Hs.
Defined.

(** Two passes over ns/s1 leave what one pass leaves. *)
Lemma C8_witness :
  clusters (world_of (Reconcile key_s1 (world_of (Reconcile key_s1 world_fresh))))
  = clusters (world_of (Reconcile key_s1 world_fresh))
  ∧ clusters (world_of (Reconcile key_s1 world_fresh)) !! key_c1 = Some cluster_c1.
Proof.
  split; [|vm_compute; reflexivity].
  destruct (C8_marking_twice_is_marking_once secret_s1 SveltosCluster_zero)
    as (_ & _ & Htwice).
  destruct (Htwice world_fresh) as [Hc _].
  - reflexivity.
  - reflexivity.
  - vm_compute; reflexivity.
  - exact eligible_secret_s1.
  - reflexivity.
  - exact Hc.
Defined.


(** The entry ns/s1 -> ns/c1 is written before the cluster is looked up. *)
Lemma C10_witness :
  eligible secret_s1
  ∧ ∃ o w' rest,
      createSveltosCluster secret_s1 world_fresh
      = (Ret o, w',
         [EvLog "reconciling secret"; EvLock; EvMapWrite key_s1 key_c1; EvUnlock;
          EvGet KSveltosCluster key_c1] ++ rest)
      ∧ SecretToCluster w' !! key_s1 = Some key_c1.
Proof.
  split; [exact eligible_secret_s1|].
  destruct (C10_index_recorded_first secret_s1 world_fresh eq_refl eligible_secret_s1)
    as (name & Hn & o & w' & rest & Hrun & Hidx & _).
  assert (name = "c1") as -> by (vm_compute in Hn; congruence).
  exists o, w', rest. split; [exact Hrun|exact Hidx].
Defined.

(** ** Further properties of the helpers *)

Lemma mark_effect (secret : Secret) (c : SveltosCluster) :
  let c' := mark secret c in
  om_Name (sc_Meta c') = om_Name (sc_Meta c)
  ∧ om_Namespace (sc_Meta c') = om_Namespace (sc_Meta c)
  ∧ om_UID (sc_Meta c') = om_UID (sc_Meta c)
  ∧ om_Labels (sc_Meta c') = om_Labels (sc_Meta c)
  ∧ om_DeletionTimestamp (sc_Meta c') = om_DeletionTimestamp (sc_Meta c)
  ∧ sc_KubeconfigName c' = sc_KubeconfigName c
  ∧ (∀ key, key ≠ sveltosClusterClaudieAnnotation →
       map_index (om_Annotations (sc_Meta c')) key
       = map_index (om_Annotations (sc_Meta c)) key)
  ∧ (om_OwnerReferences (sc_Meta c') = om_OwnerReferences (sc_Meta c)
     ∨ ∃ ref, om_OwnerReferences (sc_Meta c') = om_OwnerReferences (sc_Meta c) ++ [ref]
              ∧ ref_Name ref = om_Name (secret_Meta secret)
              ∧ ref_UID ref = om_UID (secret_Meta secret)
              ∧ ref_Kind ref = gvk_Kind (secret_GVK secret)
              ∧ existsb (refersTo secret) (om_OwnerReferences (sc_Meta c)) = false).
Proof.
  cbv zeta. unfold mark, addOwnerReference.
  change (om_OwnerReferences (sc_Meta (addAnnotation c)))
    with (om_OwnerReferences (sc_Meta c)).
  pose proof (ToAPIVersionAndKind_kind (secret_GVK secret)) as Hk.
  assert (∀ key, key ≠ sveltosClusterClaudieAnnotation →
            map_index (om_Annotations (sc_Meta (addAnnotation c))) key
            = map_index (om_Annotations (sc_Meta c)) key) as Hann.
  { intros key Hne. unfold addAnnotation, map_index. cbn [sc_Meta with_Meta om_Annotations
      set_Annotations]. rewrite lookup_insert_ne by done.
    destruct (om_Annotations (sc_Meta c)); [done|apply lookup_empty]. }
  destruct (existsb (refersTo secret) (om_OwnerReferences (sc_Meta c))) eqn:E.
  - repeat split; try reflexivity; [exact Hann|by left].
  - destruct (ToAPIVersionAndKind (secret_GVK secret)) as [apiVersion kind].
    cbn [snd] in Hk. subst kind.
    repeat split; try reflexivity; [exact Hann|].
    right. eexists. split; [reflexivity|]. done.
Qed.

(** X1: setting the provenance annotation and the owner reference changes
    nothing else of a cluster: name, namespace, UID, labels, deletion
    timestamp and [KubeconfigName] stay, every other annotation keeps its
    value, and the owner references either stay or get one entry, for the
    secret, appended. *)
Theorem X1_marking_touches_annotation_and_owners_only
    (secret : Secret) (c : SveltosCluster) :
  let c' := addOwnerReference (addAnnotation c) secret in
  om_Name (sc_Meta c') = om_Name (sc_Meta c)
  ∧ om_Namespace (sc_Meta c') = om_Namespace (sc_Meta c)
  ∧ om_UID (sc_Meta c') = om_UID (sc_Meta c)
  ∧ om_Labels (sc_Meta c') = om_Labels (sc_Meta c)
  ∧ om_DeletionTimestamp (sc_Meta c') = om_DeletionTimestamp (sc_Meta c)
  ∧ sc_KubeconfigName c' = sc_KubeconfigName c
  ∧ (∀ key, key ≠ sveltosClusterClaudieAnnotation →
       map_index (om_Annotations (sc_Meta c')) key
       = map_index (om_Annotations (sc_Meta c)) key)
  ∧ (om_OwnerReferences (sc_Meta c') = om_OwnerReferences (sc_Meta c)
     ∨ ∃ ref, om_OwnerReferences (sc_Meta c') = om_OwnerReferences (sc_Meta c) ++ [ref]
              ∧ ref_Name ref = om_Name (secret_Meta secret)
              ∧ ref_UID ref = om_UID (secret_Meta secret)
              ∧ ref_Kind ref = gvk_Kind (secret_GVK secret)
              ∧ existsb (refersTo secret) (om_OwnerReferences (sc_Meta c)) = false).
Proof. apply mark_effect. Qed.

Lemma firstSecretOwner_app (ns : string) (l1 l2 : list OwnerReference) :
  firstSecretOwner ns (l1 ++ l2)
  = match firstSecretOwner ns l1 with
    | Some k => Some k
    | None => firstSecretOwner ns l2
    end.
Proof.
  induction l1 as [|ref l1 IH]; [done|].
  cbn [app firstSecretOwner]. by destruct (bool_decide _).
Qed.

Lemma firstSecretOwner_None (ns : string) (l : list OwnerReference) :
  firstSecretOwner ns l = None ↔ existsb isSecretRef l = false.
Proof.
  induction l as [|ref l IH]; [done|].
  cbn [firstSecretOwner existsb]. unfold isSecretRef at 1.
  destruct (bool_decide (ref_Kind ref = "Secret")); [done|exact IH].
Qed.

Lemma getClaudieSecret_first (c : SveltosCluster)
    (before after : list OwnerReference) (ref : OwnerReference) :
  om_OwnerReferences (sc_Meta c) = before ++ ref :: after →
  existsb isSecretRef before = false →
  ref_Kind ref = "Secret" →
  getClaudieSecret c = Some (mkNamespacedName (om_Namespace (sc_Meta c)) (ref_Name ref)).
Proof.
  intros Ho Hb Hk. unfold getClaudieSecret.
  rewrite Ho, firstSecretOwner_app.
  apply firstSecretOwner_None with (ns := om_Namespace (sc_Meta c)) in Hb.
  rewrite Hb. cbn [firstSecretOwner]. by rewrite bool_decide_eq_true_2.
Qed.

(** X2: [getClaudieSecret] answers with the first owner reference of kind
    Secret, read as a key in the cluster's own namespace; references of other
    kinds before it and all references after it are ignored, and the answer
    is nil exactly when no owner reference has kind Secret. *)
Theorem X2_getClaudieSecret_first_secret_owner (c : SveltosCluster) :
  (getClaudieSecret c = None
   ↔ existsb isSecretRef (om_OwnerReferences (sc_Meta c)) = false)
  ∧ (∀ before ref after,
       om_OwnerReferences (sc_Meta c) = before ++ ref :: after →
       existsb isSecretRef before = false →
       ref_Kind ref = "Secret" →
       getClaudieSecret c
       = Some (mkNamespacedName (om_Namespace (sc_Meta c)) (ref_Name ref))).
Proof.
  split; [apply firstSecretOwner_None|].
  intros before ref after. apply getClaudieSecret_first.
Qed.

Lemma isSveltosClusterForClaudie_mark (secret : Secret) (c : SveltosCluster) :
  isSveltosClusterForClaudie (mark secret c) = true.
Proof.
  destruct (isSveltosClusterForClaudie (mark secret c)) eqn:E; [done|].
  apply isSveltosClusterForClaudie_false in E.
  destruct (mark_already_marked secret c) as [Ha _]. congruence.
Qed.

Lemma marked_points_back (s : Secret) (c : SveltosCluster) :
  om_Namespace (sc_Meta c) = om_Namespace (secret_Meta s) →
  existsb isSecretRef (om_OwnerReferences (sc_Meta c)) = false →
  let c' := addOwnerReference (addAnnotation c) (stamp s) in
  isSveltosClusterForClaudie c' = true
  ∧ getClaudieSecret c' = Some (ObjectKey (secret_Meta s)).
Proof.
  intros Hns Hno. cbv zeta. split; [apply isSveltosClusterForClaudie_mark|].
  destruct (mark_effect (stamp s) c) as (_ & Hn & _ & _ & _ & _ & _ & Ho).
  cbv zeta in *. unfold mark in *.
  destruct Ho as [Ho|(ref & Ho & Hname & _ & Hkind & _)].
  - (* the secret was already an owner: impossible, it has kind Secret *)
    exfalso.
    pose proof (addOwnerReference_refers (addAnnotation c) (stamp s)) as Hr.
    rewrite Ho in Hr.
    assert (∀ l, existsb isSecretRef l = false →
                 existsb (refersTo (stamp s)) l = false) as Himp.
    { induction l as [|r l IH]; [done|]. cbn [existsb].
      intros [H1 H2]%orb_false_elim. rewrite (IH H2), orb_false_r.
      unfold refersTo, isSecretRef in *. cbn [stamp secret_GVK SecretGVK gvk_Kind].
      by rewrite H1. }
    rewrite (Himp _ Hno) in Hr. discriminate.
  - rewrite (getClaudieSecret_first _ _ [] ref Ho Hno Hkind).
    rewrite Hn, Hns, Hname. reflexivity.
Qed.

(** X3: what the reconciler sets is what the sweep reads.  After the
    annotation and the owner reference for a fetched secret are set on a
    cluster of the secret's namespace that had no owner of kind Secret, the
    sweep takes the cluster for one of its own and finds the secret's key as
    its owner. *)
Theorem X3_marked_cluster_points_back_to_secret (s : Secret) (c : SveltosCluster) :
  om_Namespace (sc_Meta c) = om_Namespace (secret_Meta s) →
  existsb isSecretRef (om_OwnerReferences (sc_Meta c)) = false →
  let c' := addOwnerReference (addAnnotation c) (stamp s) in
  isSveltosClusterForClaudie c' = true
  ∧ getClaudieSecret c' = Some (ObjectKey (secret_Meta s)).
Proof. apply marked_points_back. Qed.

(** ** Whole passes *)

Lemma map_guarded_app (h : bool) (t1 t2 : list Event) :
  map_guarded h (t1 ++ t2) = map_guarded h t1 && map_guarded (lock_after h t1) t2.
Proof.
  revert h. induction t1 as [|e t1 IH]; intros h; [done|].
  destruct e; cbn [app map_guarded lock_after]; rewrite IH; try done;
    by rewrite andb_assoc.
Qed.

Lemma lock_after_app (h : bool) (t1 t2 : list Event) :
  lock_after h (t1 ++ t2) = lock_after (lock_after h t1) t2.
Proof.
  revert h. induction t1 as [|e t1 IH]; intros h; [done|].
  destruct e; cbn [app lock_after]; by rewrite IH.
Qed.

Lemma balanced_app (t1 t2 : list Event) :
  balanced t1 → balanced t2 → balanced (t1 ++ t2).
Proof.
  intros [G1 L1] [G2 L2]. split.
  - by rewrite map_guarded_app, G1, L1, G2.
  - by rewrite lock_after_app, L1, L2.
Qed.

Lemma balanced_log (msg : string) : balanced [EvLog msg].
Proof. by split. Qed.

Lemma balanced_nil : balanced [].
Proof. by split. Qed.

Lemma store_writes_app (t1 t2 : list Event) :
  store_writes (t1 ++ t2) = store_writes t1 ++ store_writes t2.
Proof. apply List.filter_app. Qed.

Lemma only_deletes_app (t1 t2 : list Event) :
  only_deletes t1 → only_deletes t2 → only_deletes (t1 ++ t2).
Proof.
  intros H1 H2 e He. apply elem_of_app in He as [He|He]; [by apply H1|by apply H2].
Qed.

(** What every run of [cleanSveltosCluster] has in common. *)
Lemma cleanSveltosCluster_summary (k : NamespacedName) (w : World) :
  Mux w = false →
  ∃ o w' t,
    cleanSveltosCluster k w = (Ret o, w', t)
    ∧ Mux w' = false
    ∧ secrets w' = secrets w
    ∧ balanced t
    ∧ only_deletes t
    ∧ (o = None → SecretToCluster w' !! k = None)
    ∧ (is_Some o → SecretToCluster w' = SecretToCluster w ∧ clusters w' = clusters w).
Proof.
  intros Hm.
  destruct (SecretToCluster w !! k) as [info|] eqn:Hk.
  - pose proof (cleanSveltosCluster_hit k info w Hm Hk) as Hrun.
    pose proof (after_fault_fields (set_Mux true w)) as (Hs & Hc & Hi & _).
    change (secrets (set_Mux true w)) with (secrets w) in Hs.
    change (clusters (set_Mux true w)) with (clusters w) in Hc.
    change (SecretToCluster (set_Mux true w)) with (SecretToCluster w) in Hi.
    assert (∀ t : list Event,
              (∀ e, e ∈ t → is_store_write e = true → ∃ c, e = EvDelete c)
              → only_deletes t) as Hod by done.
    inversion Hrun as [err wl Hget Hnf Heq | err wl Hget Hnf Heq
                      | c e w2 wl Hget Hc0 Hdel Hc2 Hi2 Heq
                      | c w2 wl Hget Hc0 Hdel Hc2 Hi2 Heq]; subst wl;
      do 3 eexists; (split; [reflexivity|]);
      cbn [Mux secrets SecretToCluster clusters set_Mux set_SecretToCluster];
      (split; [reflexivity|]).
    + split; [done|]. split; [by split|]. split.
      { intros e He Hw. repeat (apply elem_of_cons in He as [->|He]; [done|]).
        by apply elem_of_nil in He. }
      split; [intros _; apply lookup_delete_eq|]. by intros [? [=]].
    + split; [done|]. split; [by split|]. split.
      { intros e He Hw. repeat (apply elem_of_cons in He as [->|He]; [done|]).
        by apply elem_of_nil in He. }
      split; [done|]. intros _. by rewrite Hi, Hc.
    + split.
      { destruct (client_Delete_run c (after_fault (set_Mux true w)))
          as (o' & w2' & Hdel' & Hw').
        rewrite Hdel in Hdel'. inversion Hdel'; subst o' w2'.
        apply WriteRun_fields in Hw' as (Hs2 & _). by rewrite Hs2. }
      split; [by split|]. split.
      { intros e0 He Hw.
        repeat (apply elem_of_cons in He as [->|He]; [done || by eexists|]).
        by apply elem_of_nil in He. }
      split; [done|]. intros _. by rewrite Hi2, Hc2.
    + split.
      { destruct (client_Delete_run c (after_fault (set_Mux true w)))
          as (o' & w2' & Hdel' & Hw').
        rewrite Hdel in Hdel'. inversion Hdel'; subst o' w2'.
        apply WriteRun_fields in Hw' as (Hs2 & _). by rewrite Hs2. }
      split; [by split|]. split.
      { intros e0 He Hw.
        repeat (apply elem_of_cons in He as [->|He]; [done || by eexists|]).
        by apply elem_of_nil in He. }
      split; [intros _; apply lookup_delete_eq|]. by intros [? [=]].
  - rewrite cleanSveltosCluster_miss by done.
    exists None, w, [EvLock; EvMapRead k; EvUnlock].
    split; [done|]. split; [done|]. split; [done|]. split; [by split|]. split.
    { intros e He Hw. repeat (apply elem_of_cons in He as [->|He]; [done|]).
      by apply elem_of_nil in He. }
    split; [done|]. by intros [? [=]].
Qed.

Lemma CreateRun_secrets (secret : Secret) (w : World) r :
  CreateRun secret w r → secrets (world_of r) = secrets w.
Proof.
  pose proof (after_fault_fields (recorded secret w)) as (Hs & _).
  intros [err Hget Hnf | err o w2 Hget Hnf Hw Hcr | c o w2 Hget Hw Hup];
    unfold world_of; cbn [fst snd]; try done;
    apply WriteRun_fields in Hw as (Hs2 & _); by rewrite Hs2.
Qed.

Lemma createSveltosCluster_summary (secret : Secret) (w : World) :
  Mux w = false →
  ∃ o w' t,
    createSveltosCluster secret w = (Ret o, w', t)
    ∧ Mux w' = false
    ∧ secrets w' = secrets w
    ∧ balanced t.
Proof.
  intros Hm.
  pose proof (createSveltosCluster_run secret w Hm) as Hrun.
  pose proof (CreateRun_Mux _ _ _ Hrun) as Hmux. rewrite Hm in Hmux.
  pose proof (CreateRun_secrets _ _ _ Hrun) as Hsec.
  destruct (createSveltosCluster secret w) as [[o w'] t].
  inversion Hrun; subst; do 3 eexists; (split; [reflexivity|]);
    (split; [exact Hmux|split; [exact Hsec|by split]]).
Qed.

Lemma reconcileSecret_summary (secret : Secret) (w : World) :
  Mux w = false →
  ∃ res w' t,
    reconcileSecret secret w = (Ret (res, None), w', t)
    ∧ Mux w' = false
    ∧ secrets w' = secrets w
    ∧ balanced t
    ∧ (res = Result_zero ∨ res = requeue)
    ∧ (shouldReconcileSecret secret = false → w' = w ∧ t = []).
Proof.
  intros Hm. unfold reconcileSecret.
  destruct (shouldReconcileSecret secret) eqn:He; cbv beta iota delta [negb].
  - destruct (createSveltosCluster_summary secret w Hm)
      as (o & w' & t & Hrun & Hm' & Hs' & Hb).
    rewrite bind_run, Hrun.
    destruct o as [e|].
    + rewrite bind_run, log_run, ret_run.
      do 3 eexists. split; [reflexivity|]. split; [exact Hm'|]. split; [exact Hs'|].
      split; [|split; [by right|done]].
      apply balanced_app; [exact Hb|]. apply balanced_app; [apply balanced_log|apply balanced_nil].
    + rewrite ret_run. do 3 eexists. split; [reflexivity|]. split; [exact Hm'|].
      split; [exact Hs'|]. split; [|split; [by left|done]].
      apply balanced_app; [exact Hb|apply balanced_nil].
  - rewrite ret_run. do 3 eexists. split; [reflexivity|]. split; [exact Hm|].
    split; [done|]. split; [apply balanced_nil|]. split; [by left|done].
Qed.

Lemma balanced_get (kind : ResourceKind) (key : NamespacedName) : balanced [EvGet kind key].
Proof. by split. Qed.

(** What every run of [Reconcile] has in common. *)
Lemma Reconcile_summary (req : NamespacedName) (w : World) :
  Mux w = false →
  ∃ res err w' t,
    Reconcile req w = (Ret (res, err), w', t)
    ∧ Mux w' = false
    ∧ secrets w' = secrets w
    ∧ balanced t
    ∧ (res = Result_zero ∨ (res = requeue ∧ err = None))
    ∧ (is_Some err →
       ∃ e, outcome_of (client_Get_Secret req w) = Ret (inr e)
            ∧ IsNotFound e = false).
Proof.
  intros Hm. unfold Reconcile. rewrite bind_run, log_run, bind_run.
  destruct (client_Get_Secret_run req w) as (r & Hget & _). rewrite Hget.
  pose proof (after_fault_fields w) as (Hs1 & _ & _ & Hm1). rewrite Hm in Hm1.
  assert (∀ t, balanced t → balanced ([EvLog "Reconciling"] ++ [EvGet KSecret req] ++ t))
    as Hpre.
  { intros t Hb. apply balanced_app; [apply balanced_log|].
    apply balanced_app; [apply balanced_get|exact Hb]. }
  assert (∀ msg, balanced ([EvLog msg] ++ [])) as Hlog.
  { intros msg. apply balanced_app; [apply balanced_log|apply balanced_nil]. }
  destruct r as [secret|e].
  - destruct (IsZero (om_DeletionTimestamp (secret_Meta secret)));
      cbv beta iota delta [negb].
    + destruct (reconcileSecret_summary secret (after_fault w) Hm1)
        as (res & w' & t & Hrun & Hm' & Hs' & Hb & Hres & _).
      rewrite Hrun. do 4 eexists. split; [reflexivity|]. split; [exact Hm'|].
      split; [by rewrite Hs'|].
      split; [by apply Hpre|split; [tauto|by intros [? [=]]]].
    + destruct (cleanSveltosCluster_summary req (after_fault w) Hm1)
        as (o & w1 & t1 & Hclean & Hm2 & Hs2 & Hb1 & _).
      rewrite bind_run, Hclean. destruct o as [e|].
      * rewrite bind_run, log_run, ret_run. do 4 eexists. split; [reflexivity|].
        split; [exact Hm2|]. split; [by rewrite Hs2|].
        split; [|split; [by right|by intros [? [=]]]].
        apply Hpre. by apply balanced_app.
      * destruct (reconcileSecret_summary secret w1 Hm2)
          as (res & w' & t & Hrun & Hm' & Hs' & Hb & Hres & _).
        rewrite Hrun. do 4 eexists. split; [reflexivity|]. split; [exact Hm'|].
        split; [by rewrite Hs', Hs2|].
        split; [|split; [tauto|by intros [? [=]]]].
        apply Hpre. by apply balanced_app.
  - destruct (IsNotFound e) eqn:Hnf.
    + destruct (cleanSveltosCluster_summary req (after_fault w) Hm1)
        as (o & w1 & t1 & Hclean & Hm2 & Hs2 & Hb1 & _).
      rewrite bind_run, Hclean. destruct o as [e'|].
      * rewrite bind_run, log_run, ret_run. do 4 eexists. split; [reflexivity|].
        split; [exact Hm2|]. split; [by rewrite Hs2|].
        split; [|split; [by right|by intros [? [=]]]].
        apply Hpre. by apply balanced_app.
      * rewrite bind_run, log_run, ret_run. do 4 eexists. split; [reflexivity|].
        split; [exact Hm2|]. split; [by rewrite Hs2|].
        split; [|split; [by left|by intros [? [=]]]].
        apply Hpre. by apply balanced_app.
    + rewrite bind_run, log_run, ret_run. do 4 eexists. split; [reflexivity|].
      split; [exact Hm1|]. split; [exact Hs1|]. split; [by split|]. split; [by left|].
      intros _. exists e. unfold outcome_of. cbn [fst snd]. done.
Qed.

(** X4: entered with the mutex free, a pass always returns: no panic and no
    wait on the mutex, which is free again at the end.  It reads and writes
    the index only under the mutex and never changes a secret.  The result is
    empty or asks for a requeue after ten seconds, the latter always with a
    nil error; an error is returned only when the fetch of the secret failed
    with something else than not-found. *)
Theorem X4_Reconcile_always_returns (req : NamespacedName) (w : World) :
  Mux w = false →
  ∃ res err w' t,
    Reconcile req w = (Ret (res, err), w', t)
    ∧ Mux w' = false
    ∧ secrets w' = secrets w
    ∧ map_guarded false t = true
    ∧ (res = Result_zero ∨ (res = mkResult true 10000000000 ∧ err = None))
    ∧ (is_Some err →
       ∃ e, outcome_of (client_Get_Secret req w) = Ret (inr e)
            ∧ IsNotFound e = false).
Proof.
  intros Hm.
  destruct (Reconcile_summary req w Hm) as (res & err & w' & t & H1 & H2 & H3 & [H4 _] & H5 & H6).
  exists res, err, w', t. done.
Qed.

(** X5: a fetch error other than not-found goes back to the caller, wrapped
    with the key of the secret, together with an empty result; the pass does
    nothing else: no cleanup, no access to the index, no further store
    call. *)
Theorem X5_fetch_error_is_returned (req : NamespacedName) (w w1 : World)
    (e : error) (t0 : list Event) :
  client_Get_Secret req w = (Ret (inr e), w1, t0) →
  IsNotFound e = false →
  Reconcile req w
  = (Ret (Result_zero,
          Some (withMessage e ("Failed to fetch Secret " +:+ nn_Namespace req +:+ "/"
                               +:+ nn_Name req))),
     w1,
     [EvLog "Reconciling"; EvGet KSecret req;
      EvLog ("Failed to fetch Secret: " +:+ Error e)])
  ∧ clusters w1 = clusters w
  ∧ SecretToCluster w1 = SecretToCluster w.
Proof.
  intros Hget Hnf.
  destruct (client_Get_Secret_run req w) as (r & Hrun & _).
  rewrite Hrun in Hget. inversion Hget; subst r w1 t0. clear Hget.
  pose proof (after_fault_fields w) as (_ & Hc & Hi & _).
  split; [|done].
  unfold Reconcile. rewrite bind_run, log_run, bind_run, Hrun, Hnf.
  by rewrite bind_run, log_run, ret_run.
Qed.

(** X6: when the cleanup fails, be it after a not-found fetch or for a secret
    with a deletion timestamp, the pass logs the error and asks for a requeue
    after ten seconds with a nil error; it goes no further, so it creates and
    updates nothing. *)
Theorem X6_failed_cleanup_requeues (req : NamespacedName) (w w1 w2 : World)
    (got : Secret + error) (e : error) (t0 t1 : list Event) :
  client_Get_Secret req w = (Ret got, w1, t0) →
  match got with
  | inr err => IsNotFound err = true
  | inl secret => IsZero (om_DeletionTimestamp (secret_Meta secret)) = false
  end →
  cleanSveltosCluster req w1 = (Ret (Some e), w2, t1) →
  Reconcile req w
  = (Ret (mkResult true 10000000000, None), w2,
     EvLog "Reconciling" :: t0 ++ t1 ++ [EvLog ("failed to reconcile: " +:+ Error e)]).
Proof.
  intros Hget Hgot Hclean. unfold Reconcile.
  rewrite bind_run, log_run, bind_run, Hget.
  destruct got as [secret|err]; rewrite Hgot; cbv beta iota delta [negb];
    by rewrite bind_run, Hclean, bind_run, log_run, ret_run.
Qed.

(** X7: for a secret with a deletion timestamp that lacks one of the three
    labels, a pass is the cleanup and nothing more: it returns the empty
    result and no error, in the world the cleanup leaves. *)
Theorem X7_terminating_ineligible_secret_is_cleaned (req : NamespacedName)
    (w w1 w2 : World) (secret : Secret) (t0 t1 : list Event) :
  client_Get_Secret req w = (Ret (inl secret), w1, t0) →
  IsZero (om_DeletionTimestamp (secret_Meta secret)) = false →
  ¬ eligible secret →
  cleanSveltosCluster req w1 = (Ret None, w2, t1) →
  Reconcile req w = (Ret (Result_zero, None), w2, EvLog "Reconciling" :: t0 ++ t1).
Proof.
  intros Hget Hz Hne Hclean.
  assert (shouldReconcileSecret secret = false) as Hs.
  { destruct (shouldReconcileSecret secret) eqn:E; [|done].
    by apply shouldReconcileSecret_eligible in E. }
  unfold Reconcile. rewrite bind_run, log_run, bind_run, Hget, Hz.
  cbv beta iota delta [negb]. rewrite bind_run, Hclean.
  unfold reconcileSecret. rewrite Hs. cbv beta iota delta [negb].
  rewrite ret_run. by rewrite app_nil_r.
Qed.

(** X8: a cleanup for a key that is not in the index touches nothing: it
    makes no store call and returns nil in the same world.  Hence a cleanup
    that follows a successful cleanup of the same key (the same event
    delivered twice) is such a no-op. *)
Theorem X8_cleanup_of_unknown_key_is_noop (k : NamespacedName) (w : World) :
  Mux w = false →
  (SecretToCluster w !! k = None →
   cleanSveltosCluster k w = (Ret None, w, [EvLock; EvMapRead k; EvUnlock]))
  ∧ (∀ w1 t1,
       cleanSveltosCluster k w = (Ret None, w1, t1) →
       cleanSveltosCluster k w1 = (Ret None, w1, [EvLock; EvMapRead k; EvUnlock])).
Proof.
  intros Hm. split; [by apply cleanSveltosCluster_miss|].
  intros w1 t1 Hrun.
  destruct (cleanSveltosCluster_summary k w Hm)
    as (o & w' & t & Hrun' & Hm' & _ & _ & _ & Hgone & _).
  rewrite Hrun in Hrun'. inversion Hrun'; subst o w' t.
  apply cleanSveltosCluster_miss; [exact Hm'|by apply Hgone].
Qed.

Lemma client_Delete_ok (obj old : SveltosCluster) (w : World) :
  faults w = [] → clusters w !! ObjectKey (sc_Meta obj) = Some old →
  client_Delete obj w
  = (Ret None, set_clusters (delete (ObjectKey (sc_Meta obj)) (clusters w)) w, [EvDelete obj]).
Proof. intros Hf Hs. unfold client_Delete. by rewrite next_fault_none, Hs. Qed.

Lemma client_Get_Secret_missing (key : NamespacedName) (w : World) :
  faults w = [] → secrets w !! key = None →
  client_Get_Secret key w
  = (Ret (inr (StatusError StatusReasonNotFound)), w, [EvGet KSecret key]).
Proof. intros Hf Hs. unfold client_Get_Secret. by rewrite next_fault_none, Hs. Qed.

(** The cleanup when the store does not fail and holds the recorded cluster. *)
Lemma cleanSveltosCluster_ok (k info : NamespacedName) (c : SveltosCluster) (w : World) :
  Mux w = false → faults w = [] →
  SecretToCluster w !! k = Some info →
  clusters w !! info = Some c →
  ObjectKey (sc_Meta c) = info →
  cleanSveltosCluster k w
  = (Ret None,
     set_SecretToCluster (delete k (SecretToCluster w))
       (set_clusters (delete info (clusters w)) w),
     [EvLock; EvMapRead k; EvLog "removing SveltosCluster for Secret";
      EvGet KSveltosCluster info; EvDelete c; EvMapDelete k; EvUnlock]).
Proof.
  intros Hm Hf Hk Hc Hkey. unfold cleanSveltosCluster.
  rewrite bind_run, (Lock_run w Hm), NamespacedName_eta.
  unfold defer_Unlock. rewrite bind_run. unfold map_read.
  replace (SecretToCluster (set_Mux true w) !! k) with (Some info)
    by (symmetry; exact Hk).
  rewrite bind_run, log_run, bind_run.
  rewrite (client_Get_SveltosCluster_ok info c) by done.
  rewrite bind_run, (client_Delete_ok c c) by (by rewrite ?Hkey).
  rewrite bind_run. unfold map_delete. rewrite ret_run.
  rewrite Unlock_run by reflexivity. rewrite Hkey.
  destruct w as [ss cs fs idx mux]. cbn in Hm. subst mux. reflexivity.
Qed.

(** X9: creation followed by removal gives back the store and drops the index
    entry.  With a store that does not fail: a pass over an eligible secret
    without cluster, whose cluster label is a name the store accepts, creates
    the cluster; once the secret is gone, the next pass for its key deletes
    that cluster again and removes the key from the index, and returns
    success. *)
Theorem X9_create_then_cleanup_restores (secret : Secret) (w : World) :
  Mux w = false →
  faults w = [] →
  secrets w !! ObjectKey (secret_Meta secret) = Some secret →
  eligible secret →
  IsZero (om_DeletionTimestamp (secret_Meta secret)) = true →
  IsDNS1123Subdomain (getSveltosClusterName secret) = true →
  clusters w !! mkNamespacedName (om_Namespace (secret_Meta secret))
                  (getSveltosClusterName secret) = None →
  let req := ObjectKey (secret_Meta secret) in
  let w1 := world_of (Reconcile req w) in
  let later := Reconcile req (set_secrets (delete req (secrets w1)) w1) in
  outcome_of later = Ret (Result_zero, None)
  ∧ clusters (world_of later) = clusters w
  ∧ SecretToCluster (world_of later) = delete req (SecretToCluster w)
  ∧ store_writes (events_of later) = [EvDelete (newSveltosCluster (stamp secret))].
Proof.
  intros Hm Hf Hs He Hz Hv Hc req w1 later.
  apply shouldReconcileSecret_eligible in He.
  assert (targetOf (stamp secret)
          = mkNamespacedName (om_Namespace (secret_Meta secret))
              (getSveltosClusterName secret)) as Ht by reflexivity.
  assert (w1 = set_clusters (<[targetOf (stamp secret) := newSveltosCluster (stamp secret)]>
                               (clusters w)) (recorded (stamp secret) w)) as Hw1.
  { unfold w1, req. rewrite (Reconcile_ok secret w Hm Hf Hs Hz He).
    unfold world_of, upserted. cbn [fst snd].
    change (getSveltosClusterName (stamp secret)) with (getSveltosClusterName secret).
    by rewrite Ht, Hc, Hv. }
  set (c := newSveltosCluster (stamp secret)) in *.
  set (target := targetOf (stamp secret)) in *.
  set (w1' := set_secrets (delete req (secrets w1)) w1) in *.
  assert (Mux w1' = false ∧ faults w1' = []
          ∧ secrets w1' !! req = None
          ∧ SecretToCluster w1' = <[req := target]> (SecretToCluster w)
          ∧ clusters w1' = <[target := c]> (clusters w)) as (Hm1 & Hf1 & Hs1 & Hi1 & Hc1).
  { subst w1'. rewrite Hw1.
    cbn [Mux faults secrets SecretToCluster clusters set_secrets set_clusters recorded
           set_SecretToCluster].
    repeat split; try done. apply lookup_delete_eq. }
  assert (cleanSveltosCluster req w1'
          = (Ret None,
             set_SecretToCluster (delete req (SecretToCluster w1'))
               (set_clusters (delete target (clusters w1')) w1'),
             [EvLock; EvMapRead req; EvLog "removing SveltosCluster for Secret";
              EvGet KSveltosCluster target; EvDelete c; EvMapDelete req; EvUnlock]))
    as Hclean.
  { apply cleanSveltosCluster_ok;
      [ exact Hm1 | exact Hf1
      | rewrite Hi1; apply lookup_insert_eq
      | rewrite Hc1; apply lookup_insert_eq
      | apply ObjectKey_newSveltosCluster ]. }
  assert (later
          = (Ret (Result_zero, None),
             set_SecretToCluster (delete req (SecretToCluster w1'))
               (set_clusters (delete target (clusters w1')) w1'),
             [EvLog "Reconciling"; EvGet KSecret req; EvLock; EvMapRead req;
              EvLog "removing SveltosCluster for Secret";
              EvGet KSveltosCluster target; EvDelete c; EvMapDelete req; EvUnlock;
              EvLog "Failed to fetch Secret: <nil>"])) as ->.
  { subst later. unfold Reconcile.
    rewrite bind_run, log_run, bind_run.
    rewrite client_Get_Secret_missing by done.
    cbv beta iota delta [IsNotFound].
    by rewrite bind_run, Hclean, bind_run, log_run, ret_run. }
  unfold outcome_of, world_of, events_of.
  cbn [fst snd clusters SecretToCluster set_SecretToCluster set_clusters].
  split; [done|]. split; [|split; [|done]].
  - rewrite Hc1. apply delete_insert_id. by rewrite Ht in *.
  - rewrite Hi1. apply delete_insert_eq.
Qed.

(** X10: when the cluster of an eligible secret exists already, a pass
    updates it and only adds to it: its labels and its [KubeconfigName] are
    the ones it had, all it gains is the provenance annotation and the
    secret among its owners. *)
Theorem X10_update_keeps_labels_and_kubeconfig (secret : Secret) (c : SveltosCluster)
    (w : World) :
  Mux w = false →
  faults w = [] →
  secrets w !! ObjectKey (secret_Meta secret) = Some secret →
  eligible secret →
  IsZero (om_DeletionTimestamp (secret_Meta secret)) = true →
  let target := mkNamespacedName (om_Namespace (secret_Meta secret))
                  (getSveltosClusterName secret) in
  clusters w !! target = Some c →
  ObjectKey (sc_Meta c) = target →
  let pass := Reconcile (ObjectKey (secret_Meta secret)) w in
  ∃ c',
    outcome_of pass = Ret (Result_zero, None)
    ∧ store_writes (events_of pass) = [EvUpdate c']
    ∧ clusters (world_of pass) = <[target := c']> (clusters w)
    ∧ om_Labels (sc_Meta c') = om_Labels (sc_Meta c)
    ∧ sc_KubeconfigName c' = sc_KubeconfigName c
    ∧ map_index (om_Annotations (sc_Meta c')) sveltosClusterClaudieAnnotation = Some "ok"
    ∧ (∃ ref, ref ∈ om_OwnerReferences (sc_Meta c')
              ∧ ref_Kind ref = "Secret"
              ∧ ref_Name ref = om_Name (secret_Meta secret))
    ∧ (∀ ref, ref ∈ om_OwnerReferences (sc_Meta c) → ref ∈ om_OwnerReferences (sc_Meta c')).
Proof.
  intros Hm Hf Hs He Hz target Hc Hkey pass.
  apply shouldReconcileSecret_eligible in He.
  exists (mark (stamp secret) c).
  subst pass. rewrite (Reconcile_ok secret w Hm Hf Hs Hz He).
  unfold upserted.
  change (targetOf (stamp secret)) with target.
  rewrite Hc, Hkey, Hc.
  unfold outcome_of, world_of, events_of. cbn [fst snd passResult].
  split; [done|]. split; [done|]. split; [done|].
  destruct (mark_effect (stamp secret) c) as (_ & _ & _ & Hl & _ & Hk & _ & Ho).
  cbv zeta in *.
  destruct (mark_already_marked (stamp secret) c) as [Ha Hr].
  split; [exact Hl|]. split; [exact Hk|]. split; [exact Ha|]. split.
  - apply existsb_exists in Hr as (ref & Hin & Href).
    exists ref. split; [by apply list_elem_of_In|].
    unfold refersTo in Href. apply andb_true_iff in Href as [H1 H2].
    apply bool_decide_eq_true in H1. apply bool_decide_eq_true in H2. done.
  - intros ref Hin. destruct Ho as [->|(r & -> & _)]; [done|].
    apply elem_of_app. by left.
Qed.

(** ** More on the sweep *)

Lemma not_skipped (c : SveltosCluster) :
  ¬ skipped c
  ↔ IsZero (om_DeletionTimestamp (sc_Meta c)) = true
    ∧ isSveltosClusterForClaudie c = true.
Proof.
  unfold skipped. rewrite <- isSveltosClusterForClaudie_false.
  destruct (IsZero _), (isSveltosClusterForClaudie c); split;
    try (intros [? ?]; discriminate); try (intros _; split; reflexivity);
    try (intros H; exfalso; apply H; by (left + right));
    try (intros _ [?|?]; discriminate).
Qed.

Lemma skipped_dec (c : SveltosCluster) : skipped c ∨ ¬ skipped c.
Proof.
  rewrite not_skipped. unfold skipped. rewrite <- isSveltosClusterForClaudie_false.
  destruct (IsZero _), (isSveltosClusterForClaudie c);
    try (by right); try (left; by left); left; by right.
Qed.

Lemma sweepItem_run (c : SveltosCluster) (w : World) : SweepRun c w (sweepItem c w).
Proof.
  destruct (skipped_dec c) as [Hs|Hns].
  { rewrite sweepItem_skip by done. by constructor. }
  pose proof Hns as [Hz Ha]%not_skipped.
  destruct (getClaudieSecret c) as [key|] eqn:Ho.
  - unfold sweepItem. rewrite Hz, Ha, Ho. cbv beta iota delta [negb].
    rewrite bind_run, ret_run, bind_run. unfold isClaudieSecretRemoved.
    rewrite bind_run.
    destruct (client_Get_Secret_run key w) as (got & Hget & _). rewrite Hget.
    pose proof (after_fault_fields w) as (_ & Hc & _ & _).
    assert ((match got with
             | inl secret => mret (negb (IsZero (om_DeletionTimestamp (secret_Meta secret))))
             | inr err => mret (IsNotFound err)
             end : M bool) (after_fault w)
            = (Ret (counts_as_removed got), after_fault w, [])) as ->
      by (by destruct got).
    destruct (counts_as_removed got) eqn:Hrem; cbv beta iota delta [negb].
    + rewrite bind_run.
      destruct (client_Delete_run c (after_fault w)) as (o & w2 & Hdel & Hw).
      rewrite Hdel. rewrite Hc in Hw.
      destruct o as [e|]; [rewrite log_run|rewrite ret_run]; cbn [app].
      * by eapply Sweep_delete_failed.
      * by eapply Sweep_deleted.
    + rewrite ret_run. cbn [app]. by eapply Sweep_kept.
  - rewrite sweepItem_nil_owner by done. by constructor.
Qed.

(** X11: for a listed cluster of its own that is not marked for deletion and
    has an owner of kind Secret, the sweep never panics, and it issues the
    delete exactly when the fetch of that secret returns not-found or a
    secret with a deletion timestamp.  Any other answer, also any other store
    error, leaves the cluster in place. *)
Theorem X11_sweep_deletes_iff_secret_removed (c : SveltosCluster)
    (key : NamespacedName) (w : World) :
  ¬ skipped c →
  getClaudieSecret c = Some key →
  ∃ got,
    outcome_of (client_Get_Secret key w) = Ret got
    ∧ outcome_of (sweepItem c w) = Ret tt
    ∧ (EvDelete c ∈ events_of (sweepItem c w) ↔ counts_as_removed got = true)
    ∧ (counts_as_removed got = false →
       sweepItem c w = (Ret tt, world_of (client_Get_Secret key w), [EvGet KSecret key])
       ∧ clusters (world_of (sweepItem c w)) = clusters w).
Proof.
  intros Hns Ho.
  pose proof (sweepItem_run c w) as Hrun.
  pose proof (after_fault_fields w) as (_ & Hc & _ & _).
  inversion Hrun as [Hs Heq | msg _ Ho' Heq | key' got _ Ho' Hget Hrem Heq
                    | key' got e w2 _ Ho' Hget Hrem Hw Heq
                    | key' got w2 _ Ho' Hget Hrem Hw Heq]; try done; try congruence;
    rewrite Ho in Ho'; inversion Ho'; subst key'; exists got;
    rewrite Hget; unfold outcome_of, events_of, world_of; cbn [fst snd];
    (split; [done|]); (split; [done|]); rewrite Hrem.
  - split; [|done]. split; [|done].
    intros He. apply list_elem_of_singleton in He. discriminate.
  - split; [|done]. split; [done|]. intros _. right. left.
  - split; [|done]. split; [done|]. intros _. right. left.
Qed.

Lemma SweepRun_frame (c : SveltosCluster) (w : World) r :
  SweepRun c w r →
  secrets (world_of r) = secrets w
  ∧ SecretToCluster (world_of r) = SecretToCluster w
  ∧ Mux (world_of r) = Mux w
  ∧ clusters (world_of r) ⊆ clusters w
  ∧ only_deletes (events_of r).
Proof.
  pose proof (after_fault_fields w) as (Hs & Hc & Hi & Hm).
  intros [Hsk | msg Hns Ho | key got Hns Ho Hget Hrem
         | key got e w2 Hns Ho Hget Hrem Hw | key got w2 Hns Ho Hget Hrem Hw];
    unfold world_of, events_of; cbn [fst snd].
  - repeat split; try done. by intros e He%elem_of_nil.
  - repeat split; try done. intros e He%list_elem_of_singleton. by subst e.
  - rewrite Hc. repeat split; try done. intros e He%list_elem_of_singleton. by subst e.
  - apply WriteRun_fields in Hw as (Hs2 & Hi2 & Hm2 & Hc2).
    rewrite Hs2, Hi2, Hm2. repeat split; try done.
    + destruct Hc2 as [->|[? _]]; [by rewrite Hc|done].
    + intros e0 He Hw0. repeat (apply elem_of_cons in He as [->|He]; [done || by eexists|]).
      by apply elem_of_nil in He.
  - apply WriteRun_fields in Hw as (Hs2 & Hi2 & Hm2 & Hc2).
    rewrite Hs2, Hi2, Hm2. repeat split; try done.
    + destruct Hc2 as [->|[_ ->]]; [by rewrite Hc|apply delete_subseteq].
    + intros e0 He Hw0. repeat (apply elem_of_cons in He as [->|He]; [done || by eexists|]).
      by apply elem_of_nil in He.
Qed.

Lemma sweepItems_frame (items : list SveltosCluster) (w : World) :
  secrets (world_of (sweepItems items w)) = secrets w
  ∧ SecretToCluster (world_of (sweepItems items w)) = SecretToCluster w
  ∧ Mux (world_of (sweepItems items w)) = Mux w
  ∧ clusters (world_of (sweepItems items w)) ⊆ clusters w
  ∧ only_deletes (events_of (sweepItems items w)).
Proof.
  revert w. induction items as [|c rest IH]; intros w.
  - repeat split; try done. by intros e He%elem_of_nil.
  - rewrite sweepItems_cons.
    pose proof (SweepRun_frame c w _ (sweepItem_run c w)) as (Hs & Hi & Hm & Hc & Hod).
    destruct (sweepItem c w) as [[[[]|why] w1] t1]; unfold world_of, events_of in *;
      cbn [fst snd] in *; [|done].
    destruct (IH w1) as (Hs' & Hi' & Hm' & Hc' & Hod').
    rewrite Hs', Hi', Hm'. repeat split; try done.
    + by etrans.
    + by apply only_deletes_app.
Qed.

(** X12: the sweep only ever removes registered clusters.  In any number of
    rounds every store write is a delete, so the clusters afterwards are
    among those before; secrets, the index and the mutex are as they were. *)
Theorem X12_sweep_only_removes_clusters (ticks : nat) (w : World) :
  let run := cleanStaleSveltosCluster ticks w in
  only_deletes (events_of run)
  ∧ clusters (world_of run) ⊆ clusters w
  ∧ secrets (world_of run) = secrets w
  ∧ SecretToCluster (world_of run) = SecretToCluster w
  ∧ Mux (world_of run) = Mux w.
Proof.
  cbv zeta. revert w. induction ticks as [|n IH]; intros w.
  - repeat split; try done. by intros e He%elem_of_nil.
  - cbn [cleanStaleSveltosCluster]. rewrite bind_run.
    pose proof (after_fault_fields w) as (Hs & Hc & Hi & Hm).
    assert (only_deletes (events_of (sweepTick w))
            ∧ clusters (world_of (sweepTick w)) ⊆ clusters w
            ∧ secrets (world_of (sweepTick w)) = secrets w
            ∧ SecretToCluster (world_of (sweepTick w)) = SecretToCluster w
            ∧ Mux (world_of (sweepTick w)) = Mux w) as (Hod1 & Hc1 & Hs1 & Hi1 & Hm1).
    { destruct (sweepItems_frame ((map_to_list (clusters w)).*2) (after_fault w))
        as (Hs' & Hi' & Hm' & Hc' & Hod').
      destruct (sweepTick_run w) as [Hrun|Hrun]; rewrite Hrun;
        unfold world_of, events_of in *; cbn [fst snd] in *.
      - rewrite Hs, Hc, Hi, Hm. repeat split; try done.
        intros e He Hw. repeat (apply elem_of_cons in He as [->|He]; [done|]).
        by apply elem_of_nil in He.
      - rewrite Hs', Hi', Hm', Hs, Hi, Hm. rewrite Hc in Hc'. repeat split; try done.
        apply (only_deletes_app [EvSleep (2 * Minute); EvList]); [|done].
        intros e He Hw. repeat (apply elem_of_cons in He as [->|He]; [done|]).
        by apply elem_of_nil in He. }
    destruct (sweepTick w) as [[[[]|why] w1] t1]; unfold world_of, events_of in *;
      cbn [fst snd] in *; [|done].
    destruct (IH w1) as (Hod2 & Hc2 & Hs2 & Hi2 & Hm2).
    destruct (cleanStaleSveltosCluster n w1) as [[o2 w2] t2]; cbn [fst snd] in *.
    rewrite Hs2, Hi2, Hm2. repeat split; try done.
    + by apply only_deletes_app.
    + by etrans.
Qed.



(** X14: the cluster the reconciler creates for a fetched secret is the
    sweep's to judge by that secret.  With a store that does not fail: while
    the secret is there without deletion timestamp the sweep leaves the
    cluster; once the secret is gone the sweep deletes it, index or no
    index. *)
Theorem X14_sweep_follows_the_secret_of_a_created_cluster (secret : Secret) (w : World) :
  faults w = [] →
  let c := newSveltosCluster (stamp secret) in
  let key := ObjectKey (secret_Meta secret) in
  (∀ s, secrets w !! key = Some s →
        IsZero (om_DeletionTimestamp (secret_Meta s)) = true →
        sweepItem c w = (Ret tt, w, [EvGet KSecret key]))
  ∧ (secrets w !! key = None →
     is_Some (clusters w !! ObjectKey (sc_Meta c)) →
     sweepItem c w
     = (Ret tt, set_clusters (delete (ObjectKey (sc_Meta c)) (clusters w)) w,
        [EvGet KSecret key; EvDelete c])).
Proof.
  intros Hf c key.
  assert (isSveltosClusterForClaudie c = true ∧ getClaudieSecret c = Some key) as [Ha Ho].
  { apply (marked_points_back secret
             (set_KubeconfigName (om_Name (secret_Meta (stamp secret)))
                (with_Meta (set_Name (getSveltosClusterName (stamp secret)))
                   (with_Meta (set_Namespace (getSveltosClusterNamespace (stamp secret)))
                      SveltosCluster_zero)))); reflexivity. }
  assert (IsZero (om_DeletionTimestamp (sc_Meta c)) = true) as Hz.
  { destruct (mark_effect (stamp secret)
                (set_KubeconfigName (om_Name (secret_Meta (stamp secret)))
                   (with_Meta (set_Name (getSveltosClusterName (stamp secret)))
                      (with_Meta (set_Namespace (getSveltosClusterNamespace (stamp secret)))
                         SveltosCluster_zero)))) as (_ & _ & _ & _ & Hd & _).
    unfold c, newSveltosCluster. cbv zeta in Hd. by rewrite Hd. }
  split.
  - intros s Hs Hlive. unfold sweepItem. rewrite Hz, Ha, Ho. cbv beta iota delta [negb].
    rewrite bind_run, ret_run, bind_run. unfold isClaudieSecretRemoved.
    rewrite bind_run, (client_Get_Secret_ok key s) by done.
    rewrite ret_run.
    change (om_DeletionTimestamp (secret_Meta (stamp s)))
      with (om_DeletionTimestamp (secret_Meta s)).
    rewrite Hlive. cbv beta iota delta [negb]. by rewrite ret_run.
  - intros Hs [old Hold]. unfold sweepItem. rewrite Hz, Ha, Ho. cbv beta iota delta [negb].
    rewrite bind_run, ret_run, bind_run. unfold isClaudieSecretRemoved.
    rewrite bind_run, client_Get_Secret_missing by done.
    rewrite ret_run. cbv beta iota delta [IsNotFound negb].
    rewrite bind_run, (client_Delete_ok c old) by done.
    by rewrite ret_run.
Qed.

(** ** Eligibility and the target of a pass *)

Lemma has_label_keys (secret : Secret) (key : string) :
  has_label secret key ↔ key ∈ label_keys secret.
Proof.
  unfold has_label, label_keys, map_index.
  destruct (om_Labels (secret_Meta secret)) as [labels|].
  - by rewrite elem_of_dom.
  - split; [by intros ?%is_Some_None|by intros ?%elem_of_empty].
Qed.

(** X15: [shouldReconcileSecret] looks at label keys only.  It answers true
    exactly when the three Claudie keys are among the secret's label keys, so
    two secrets with the same label keys get the same answer whatever the
    values, and a secret without labels is never reconciled. *)
Theorem X15_eligibility_is_about_keys (secret : Secret) :
  (shouldReconcileSecret secret = true
   ↔ claudieLabel ∈ label_keys secret
     ∧ claudieKubeconfig ∈ label_keys secret
     ∧ claudieCluster ∈ label_keys secret)
  ∧ (∀ other, label_keys other = label_keys secret →
              shouldReconcileSecret other = shouldReconcileSecret secret)
  ∧ (om_Labels (secret_Meta secret) = None → shouldReconcileSecret secret = false).
Proof.
  assert (∀ s, shouldReconcileSecret s = true
               ↔ claudieLabel ∈ label_keys s
                 ∧ claudieKubeconfig ∈ label_keys s
                 ∧ claudieCluster ∈ label_keys s) as Hkeys.
  { intros s. rewrite shouldReconcileSecret_eligible. unfold eligible.
    by rewrite !has_label_keys. }
  split; [apply Hkeys|]. split.
  - intros other Heq.
    destruct (shouldReconcileSecret secret) eqn:E.
    + apply Hkeys. rewrite Heq. by apply Hkeys.
    + destruct (shouldReconcileSecret other) eqn:E'; [|done].
      apply Hkeys in E'. rewrite Heq in E'. apply Hkeys in E'. congruence.
  - intros Hnil. unfold shouldReconcileSecret. by rewrite Hnil.
Qed.

(** X16: with a store that does not fail and keeps every cluster under its
    own key, a pass over an eligible secret without deletion timestamp
    touches no cluster but the one named by the cluster label, and makes the
    index entry of the secret point to it, whatever the entry was before.  A
    cluster recorded under an earlier value of the label therefore stays in
    the store.  When the pass returns success the named cluster exists, and
    it returns success whenever the label value is a name the store
    accepts. *)
Theorem X16_pass_touches_only_its_target (secret : Secret) (w : World) :
  Mux w = false →
  faults w = [] →
  well_keyed (clusters w) →
  secrets w !! ObjectKey (secret_Meta secret) = Some secret →
  eligible secret →
  IsZero (om_DeletionTimestamp (secret_Meta secret)) = true →
  let req := ObjectKey (secret_Meta secret) in
  let target := mkNamespacedName (om_Namespace (secret_Meta secret))
                  (getSveltosClusterName secret) in
  let pass := Reconcile req w in
  (∀ k, k ≠ target → clusters (world_of pass) !! k = clusters w !! k)
  ∧ (outcome_of pass = Ret (Result_zero, None) →
     is_Some (clusters (world_of pass) !! target))
  ∧ (IsDNS1123Subdomain (getSveltosClusterName secret) = true →
     outcome_of pass = Ret (Result_zero, None))
  ∧ SecretToCluster (world_of pass) = <[req := target]> (SecretToCluster w).
Proof.
  intros Hm Hf Hwk Hs He Hz req target pass.
  apply shouldReconcileSecret_eligible in He.
  unfold pass, req. rewrite (Reconcile_ok secret w Hm Hf Hs Hz He).
  unfold world_of, outcome_of, upserted. cbn [fst snd].
  change (targetOf (stamp secret)) with target.
  change (getSveltosClusterName (stamp secret)) with (getSveltosClusterName secret).
  destruct (clusters w !! target) as [c|] eqn:Ec.
  - rewrite (Hwk target c Ec), Ec.
    cbn [fst snd passResult clusters SecretToCluster recorded set_clusters
           set_SecretToCluster].
    split; [intros k Hk; by rewrite lookup_insert_ne|].
    split; [intros _; rewrite lookup_insert_eq; by eexists|]. split; done.
  - destruct (IsDNS1123Subdomain (getSveltosClusterName secret));
      cbn [fst snd passResult clusters SecretToCluster recorded set_clusters
             set_SecretToCluster].
    + split; [intros k Hk; by rewrite lookup_insert_ne|].
      split; [intros _; rewrite lookup_insert_eq; by eexists|]. split; done.
    + split; [done|]. split; [intros [=]|]. split; done.
Qed.

(** ** The further properties on the example objects *)

(** Marking the user's cluster keeps its label. *)
Lemma X1_witness :
  map_index (om_Labels (sc_Meta (addOwnerReference (addAnnotation cluster_labelled) secret_s1)))
            "env" = Some "prod"
  ∧ sc_KubeconfigName (addOwnerReference (addAnnotation cluster_labelled) secret_s1) = "other".
Proof.
  destruct (X1_marking_touches_annotation_and_owners_only secret_s1 cluster_labelled)
    as (_ & _ & _ & Hl & _ & Hk & _).
  cbv zeta in *. rewrite Hl, Hk. split; vm_compute; reflexivity.
Defined.

(** The owner of ns/c1 is read as the key ns/s1. *)
Lemma X2_witness : getClaudieSecret cluster_c1 = Some key_s1.
Proof.
  destruct (X2_getClaudieSecret_first_secret_owner cluster_c1) as [_ Hfirst].
  apply (Hfirst [] (mkOwnerReference "v1" "Secret" "s1" "uid-s1") []); reflexivity.
Defined.

(** Marked for ns/s1, the user's cluster points back to ns/s1. *)
Lemma X3_witness :
  getClaudieSecret (addOwnerReference (addAnnotation cluster_labelled) (stamp secret_s1))
  = Some key_s1.
Proof.
  destruct (X3_marked_cluster_points_back_to_secret secret_s1 cluster_labelled) as [_ H].
  - reflexivity.
  - reflexivity.
  - exact H.
Defined.

(** A pass on the store that times out returns, with the mutex free. *)
Lemma X4_witness :
  Mux world_fetch_fails = false
  ∧ ∃ res err w' t,
      Reconcile key_s1 world_fetch_fails = (Ret (res, err), w', t) ∧ Mux w' = false.
Proof.
  split; [reflexivity|].
  destruct (X4_Reconcile_always_returns key_s1 world_fetch_fails eq_refl)
    as (res & err & w' & t & Hrun & Hm & _).
  exists res, err, w', t. split; [exact Hrun|exact Hm].
Defined.

(** The time-out of the fetch comes back wrapped. *)
Lemma X5_witness :
  outcome_of (Reconcile key_s1 world_fetch_fails)
  = Ret (Result_zero,
         Some (withMessage (StatusError StatusReasonServerTimeout)
                 "Failed to fetch Secret ns/s1")).
Proof.
  destruct (X5_fetch_error_is_returned key_s1 world_fetch_fails
              (set_faults [] world_fetch_fails)
              (StatusError StatusReasonServerTimeout) [EvGet KSecret key_s1])
    as [Hrun _].
  - vm_compute; reflexivity.
  - reflexivity.
  - rewrite Hrun. reflexivity.
Defined.

(** The secret is gone and the store fails during the cleanup: requeue. *)
Lemma X6_witness :
  outcome_of (Reconcile key_s1 world_delete_fails)
  = Ret (mkResult true 10000000000, None).
Proof.
  rewrite (X6_failed_cleanup_requeues key_s1 world_delete_fails
             (world_of (client_Get_Secret key_s1 world_delete_fails))
             (world_of (cleanSveltosCluster key_s1
                          (world_of (client_Get_Secret key_s1 world_delete_fails))))
             (inr (StatusError StatusReasonNotFound))
             (StatusError StatusReasonInternalError)
             [EvGet KSecret key_s1]
             (events_of (cleanSveltosCluster key_s1
                           (world_of (client_Get_Secret key_s1 world_delete_fails))))).
  - reflexivity.
  - vm_compute; reflexivity.
  - reflexivity.
  - vm_compute; reflexivity.
Defined.

(** The terminating secret with two labels: cleanup and success. *)
Lemma X7_witness :
  ¬ eligible secret_two_labels_terminating
  ∧ Reconcile key_s1 world_two_labels_terminating
    = (Ret (Result_zero, None), world_two_labels_terminating,
       [EvLog "Reconciling"; EvGet KSecret key_s1; EvLock; EvMapRead key_s1; EvUnlock]).
Proof.
  assert (¬ eligible secret_two_labels_terminating) as Hne.
  { intros (_ & H & _). vm_compute in H. by apply is_Some_None in H. }
  split; [exact Hne|].
  apply (X7_terminating_ineligible_secret_is_cleaned key_s1 world_two_labels_terminating
           world_two_labels_terminating world_two_labels_terminating
           secret_two_labels_terminating [EvGet KSecret key_s1]
           [EvLock; EvMapRead key_s1; EvUnlock]).
  - vm_compute; reflexivity.
  - reflexivity.
  - exact Hne.
  - vm_compute; reflexivity.
Defined.

(** The cleanup of ns/s1, done twice: the second does nothing. *)
Lemma X8_witness :
  let w1 := world_of (cleanSveltosCluster key_s1 world_secret_gone) in
  cleanSveltosCluster key_s1 w1 = (Ret None, w1, [EvLock; EvMapRead key_s1; EvUnlock]).
Proof.
  cbv zeta.
  destruct (X8_cleanup_of_unknown_key_is_noop key_s1 world_secret_gone eq_refl) as [_ Htwice].
  apply (Htwice _ (events_of (cleanSveltosCluster key_s1 world_secret_gone))).
  vm_compute; reflexivity.
Defined.

(** ns/c1 is created for ns/s1 and removed again when ns/s1 is gone. *)
Lemma X9_witness :
  let w1 := world_of (Reconcile key_s1 world_fresh) in
  clusters w1 !! key_c1 = Some cluster_c1
  ∧ clusters (world_of (Reconcile key_s1 (set_secrets (delete key_s1 (secrets w1)) w1)))
    = clusters world_fresh.
Proof.
  cbv zeta. split; [vm_compute; reflexivity|].
  destruct (X9_create_then_cleanup_restores secret_s1 world_fresh) as (_ & Hc & _).
  - reflexivity.
  - reflexivity.
  - vm_compute; reflexivity.
  - exact eligible_secret_s1.
  - reflexivity.
  - vm_compute; reflexivity.
  - vm_compute; reflexivity.
  - exact Hc.
Defined.

(** The pass over ns/s1 updates the user's cluster and keeps its label. *)
Lemma X10_witness :
  ∃ c',
    store_writes (events_of (Reconcile key_s1 world_existing)) = [EvUpdate c']
    ∧ om_Labels (sc_Meta c') = Some (<["env" := "prod"]> ∅)
    ∧ sc_KubeconfigName c' = "other".
Proof.
  destruct (X10_update_keeps_labels_and_kubeconfig secret_s1 cluster_labelled world_existing)
    as (c' & _ & Hw & _ & Hl & Hk & _).
  - reflexivity.
  - reflexivity.
  - vm_compute; reflexivity.
  - exact eligible_secret_s1.
  - reflexivity.
  - vm_compute; reflexivity.
  - reflexivity.
  - exists c'. split; [exact Hw|]. split; [exact Hl|exact Hk].
Defined.

Lemma not_skipped_cluster_stale : ¬ skipped cluster_stale.
Proof. intros [H|H]; vm_compute in H; discriminate. Defined.

(** The stale cluster: its secret is not found, the delete is issued. *)
Lemma X11_witness : EvDelete cluster_stale ∈ events_of (sweepItem cluster_stale world_stale).
Proof.
  destruct (X11_sweep_deletes_iff_secret_removed cluster_stale
              (mkNamespacedName "ns" "s2") world_stale)
    as (got & Hget & _ & Hiff & _).
  - exact not_skipped_cluster_stale.
  - reflexivity.
  - apply Hiff.
    assert (got = inr (StatusError StatusReasonNotFound)) as ->
      by (vm_compute in Hget; congruence).
    reflexivity.
Defined.


(** Once ns/s1 is gone the sweep deletes the cluster created for it. *)
Lemma X14_witness :
  sweepItem cluster_c1 world_secret_gone
  = (Ret tt, set_clusters (delete key_c1 (clusters world_secret_gone)) world_secret_gone,
     [EvGet KSecret key_s1; EvDelete cluster_c1]).
Proof.
  destruct (X14_sweep_follows_the_secret_of_a_created_cluster secret_s1 world_secret_gone
              eq_refl) as [_ Hgone].
  apply Hgone.
  - vm_compute; reflexivity.
  - exists cluster_c1. vm_compute; reflexivity.
Defined.

(** The relabelled secret is as eligible as the original. *)
Lemma X15_witness :
  label_keys secret_s1_relabelled = label_keys secret_s1
  ∧ shouldReconcileSecret secret_s1_relabelled = shouldReconcileSecret secret_s1.
Proof.
  assert (label_keys secret_s1_relabelled = label_keys secret_s1) as Hk
    by (vm_compute; reflexivity).
  split; [exact Hk|].
  destruct (X15_eligibility_is_about_keys secret_s1) as (_ & Hsame & _).
  apply Hsame. exact Hk.
Defined.

Lemma eligible_secret_s1_relabelled : eligible secret_s1_relabelled.
Proof. repeat split; vm_compute; by eexists. Defined.

(** After the label change the pass leaves ns/c1 in the store and points the
    index at ns/c9. *)
Lemma X16_witness :
  clusters (world_of (Reconcile key_s1 world_relabelled)) !! key_c1 = Some cluster_c1
  ∧ SecretToCluster (world_of (Reconcile key_s1 world_relabelled)) !! key_s1
    = Some (mkNamespacedName "ns" "c9").
Proof.
  destruct (X16_pass_touches_only_its_target secret_s1_relabelled world_relabelled)
    as (Hother & _ & _ & Hidx).
  - reflexivity.
  - reflexivity.
  - by apply well_keyed_singleton.
  - vm_compute; reflexivity.
  - exact eligible_secret_s1_relabelled.
  - reflexivity.
  - split.
    + change (ObjectKey (secret_Meta secret_s1_relabelled)) with key_s1 in Hother.
      rewrite (Hother key_c1); [vm_compute; reflexivity|].
      intros H. vm_compute in H. discriminate.
    + change (ObjectKey (secret_Meta secret_s1_relabelled)) with key_s1 in Hidx.
      rewrite Hidx. apply lookup_insert_eq.
Defined.
